(** * Climate Scheduler: schedule resolution and override arbitration

    A shallow embedding of [custom_components/climate_scheduler/climate.py]
    (class [ClimateSchedulerEntity]) together with the constants of
    [const.py] and the two flows of [config_flow.py], and the properties
    of the scheduler stated over it.

    Conventions of the embedding:
    - a Python [str] is a [string]; comparison of strings is the
      lexicographic comparison of their characters;
    - a [dict] is a [gmap] keyed by strings, [d.get(k, v)] is
      [default v (d !! k)];
    - a naive [datetime] is the number of microseconds elapsed since
      0001-01-01T00:00:00 (a Monday), [datetime.now()] is an argument of
      the operation that reads the clock; the several reads one handler
      makes are taken to return the same instant;
    - a handler that can raise returns a [result]; every raise of the
      handlers below happens before the entity is written to, so a raised
      exception leaves the entity as the caller passed it;
    - the side effects of a handler (service calls, state write-outs, log
      records) are appended to the [trace] of the entity. *)

From Stdlib Require Import ZArith List String Ascii Bool Lia SpecFloat.
From stdpp Require Import base option list sorting gmap strings.

Local Open Scope string_scope.
Local Open Scope Z_scope.

(** ** const.py *)

Module Const.

Definition DOMAIN : string := "climate_scheduler".
Definition DEFAULT_NAME : string := "Climate Scheduler".

Definition CONF_CLIMATE_ENTITY : string := "climate_entity".
Definition CONF_SCHEDULES : string := "schedules".
Definition CONF_PRESETS : string := "presets".

Definition SCHEDULE_WEEKDAY : string := "weekday".
Definition SCHEDULE_WEEKEND : string := "weekend".

Definition PRESET_HOME : string := "home".
Definition PRESET_AWAY : string := "away".
Definition PRESET_SLEEP : string := "sleep".
Definition PRESET_VACATION : string := "vacation".

End Const.
Import Const.

(** ** Python values and exceptions *)

Inductive exn : Type := ValueError | TypeError | OverflowError.

Inductive result (A : Type) : Type :=
  | Ok (a : A)
  | Raise (e : exn).
Arguments Ok {A} a.
Arguments Raise {A} e.

Definition bind {A B : Type} (r : result A) (k : A -> result B) : result B :=
  match r with
  | Ok a => k a
  | Raise e => Raise e
  end.

Notation "'do' x <- r ; k" := (bind r (fun x => k))
  (at level 10, x name, r at level 100, k at level 200).

(** A temperature is a Python number: an [int] or a [float] (IEEE binary64,
    kept as the data of [spec_float]; no arithmetic is done on it).
    [float | None] is [option number]. *)
Inductive number : Type :=
  | Int (z : Z)
  | Float (f : spec_float).

(** Truth value of a number: zero (of either sign) is false, everything
    else, NaN included, is true. *)
Definition number_truthy (n : number) : bool :=
  match n with
  | Int z => negb (z =? 0)
  | Float (S754_zero _) => false
  | Float _ => true
  end.

(** Truth value of [x] for [x : float | int | None]. *)
Definition truthy (v : option number) : bool :=
  match v with
  | None => false
  | Some n => number_truthy n
  end.

(** [float(x)] for [x : float | int | None]: [None] raises [TypeError], an
    [int] is rounded to the nearest binary64 (ties to even) and raises
    [OverflowError] when that is not finite, a [float] is returned. *)
Definition py_float (v : option number) : result spec_float :=
  match v with
  | None => Raise TypeError
  | Some (Float f) => Ok f
  | Some (Int z) =>
      match binary_normalize 53 1024 z 0 false with
      | S754_infinity _ => Raise OverflowError
      | f => Ok f
      end
  end.

(** Truth value of a [str]: false for the empty string only. *)
Definition str_truthy (s : string) : bool :=
  match s with
  | EmptyString => false
  | String _ _ => true
  end.

(** ** datetime *)

Definition datetime : Type := Z.

Definition usec_per_minute : Z := 60 * 1000000.
Definition usec_per_day : Z := 24 * 60 * usec_per_minute.

(** [d.time()], as microseconds since midnight. *)
Definition time_of (d : datetime) : Z := d mod usec_per_day.

(** [d.weekday()]: Monday is 0, Sunday is 6. *)
Definition weekday (d : datetime) : Z := (d / usec_per_day) mod 7.

(** [time(hour = h, minute = m)]. *)
Definition mk_time (h m : Z) : Z := (h * 60 + m) * usec_per_minute.

(** *** [datetime.strptime(s, "%H:%M").time()]

    The format compiles to the regular expression
    [(2[0-3]|[0-1]\d|\d):([0-5]\d|\d)], matched at the start of [s]; a
    match that does not reach the end of [s], like no match at all,
    raises [ValueError] (here [None]). Only ASCII digits are covered. *)

Definition digit (c : ascii) : option Z :=
  let n := Z.of_N (N_of_ascii c) in
  if (48 <=? n) && (n <=? 57) then Some (n - 48) else None.

Definition one_digit (s : string) : option (Z * string) :=
  match s with
  | String c1 rest =>
      match digit c1 with
      | Some d1 => Some (d1, rest)
      | None => None
      end
  | EmptyString => None
  end.

Definition two_digits (s : string) : option (Z * Z * string) :=
  match s with
  | String c1 (String c2 rest) =>
      match digit c1, digit c2 with
      | Some d1, Some d2 => Some (d1, d2, rest)
      | _, _ => None
      end
  | _ => None
  end.

Definition colon (s : string) : option string :=
  match s with
  | String c rest => if Ascii.eqb c ":" then Some rest else None
  | EmptyString => None
  end.

(** The hour directive followed by the colon: the value and what is left
    of the input. The alternatives are tried in the order of the pattern,
    the next one when the colon does not follow. *)
Definition match_hour (s : string) : option (Z * string) :=
  let two :=
    match two_digits s with
    | Some (d1, d2, rest) =>
        if (d1 =? 2) && (d2 <=? 3) || (d1 <=? 1)
        then option_map (pair (10 * d1 + d2)) (colon rest)
        else None
    | None => None
    end in
  match two with
  | Some r => Some r
  | None =>
      match one_digit s with
      | Some (d1, rest) => option_map (pair d1) (colon rest)
      | None => None
      end
  end.

(** The minute directive: two digits when the first is at most 5 and a
    second one follows, one digit otherwise. *)
Definition match_minute (s : string) : option (Z * string) :=
  match two_digits s with
  | Some (d1, d2, rest) =>
      if d1 <=? 5 then Some (10 * d1 + d2, rest) else one_digit s
  | None => one_digit s
  end.

Definition strptime (s : string) : option Z :=
  match match_hour s with
  | Some (h, rest) =>
      match match_minute rest with
      | Some (m, EmptyString) => Some (mk_time h m)
      | _ => None
      end
  | None => None
  end.

(** ** Schedule table and preset catalog *)

(** One entry of a day schedule: a dict with the optional keys ["time"]
    and ["preset"], both holding strings. *)
Record slot : Type := Slot {
  slot_time : option string;
  slot_preset : option string;
}.

(** [slot.get("time", "00:00")]. *)
Definition time_key (x : slot) : string := default "00:00" (slot_time x).

(** [sorted(l, key = key)]: the stable sort by [<] on the keys. [insert_sorted]
    puts an element in front of the first one whose key is not smaller,
    so that, the input being consumed from its end, elements with equal
    keys stay in input order. *)
Section Sorted.
Context {A : Type} (key : A -> string).

Fixpoint insert_sorted (x : A) (l : list A) : list A :=
  match l with
  | [] => [x]
  | y :: l' =>
      if String.ltb (key y) (key x) then y :: insert_sorted x l'
      else x :: y :: l'
  end.

Definition sorted (l : list A) : list A := foldr insert_sorted [] l.

End Sorted.

(** SCHEDULE_WEEKDAY if current_day < 5 else SCHEDULE_WEEKEND *)
Definition schedule_type (now : datetime) : string :=
  if weekday now <? 5 then SCHEDULE_WEEKDAY else SCHEDULE_WEEKEND.

(** The loop "Find current time slot" of [_async_check_schedule], over the
    sorted slots, [active_preset] being the loop-carried variable. *)
Fixpoint find_active (current_time : Z) (slots : list slot)
    (active_preset : option string) : result (option string) :=
  match slots with
  | [] => Ok active_preset
  | x :: rest =>
      match strptime (time_key x) with
      | None => Raise ValueError
      | Some slot_t =>
          if slot_t <=? current_time
          then find_active current_time rest (slot_preset x)
          else Ok active_preset
      end
  end.

(** The loop of [_get_next_schedule]. *)
Fixpoint find_next_time (current_time : Z) (slots : list slot)
    : result (option string) :=
  match slots with
  | [] => Ok None
  | x :: rest =>
      match strptime (time_key x) with
      | None => Raise ValueError
      | Some slot_t =>
          if current_time <? slot_t then Ok (slot_time x)
          else find_next_time current_time rest
      end
  end.

(** [presets.get(preset, {})] for a [preset] that may be [None]. *)
Definition preset_entry (presets : gmap string (gmap string (option number)))
    (preset : option string) : gmap string (option number) :=
  match preset with
  | Some p => default ∅ (presets !! p)
  | None => ∅
  end.

(** The loop of [_get_next_temperature]; [.get("temperature")] of a
    missing key is [None]. *)
Fixpoint find_next_temperature
    (presets : gmap string (gmap string (option number)))
    (current_time : Z) (slots : list slot) : result (option number) :=
  match slots with
  | [] => Ok None
  | x :: rest =>
      match strptime (time_key x) with
      | None => Raise ValueError
      | Some slot_t =>
          if current_time <? slot_t
          then Ok (default None (preset_entry presets (slot_preset x) !! "temperature"))
          else find_next_temperature presets current_time rest
      end
  end.

(** ** The entity *)

(** Constants of the host platform that the entity refers to. *)
Module HA.

Definition ATTR_TEMPERATURE : string := "temperature".
Definition STATE_UNAVAILABLE : string := "unavailable".
Definition STATE_UNKNOWN : string := "unknown".

Inductive HVACMode : Type :=
  | OFF | HEAT | COOL | HEAT_COOL | AUTO | DRY | FAN_ONLY.

End HA.
Import HA.

(** The two services of the downstream climate device the entity calls,
    with the data of the call. *)
Inductive service_call : Type :=
  | set_temperature (entity_id : string) (temperature : number)
  | set_hvac_mode (entity_id : string) (mode : HVACMode).

Inductive level : Type := DEBUG | INFO | WARNING | ERROR.

Inductive effect : Type :=
  | Call (c : service_call)
  | WriteHaState
  | Log (l : level) (msg : string).

(** The attributes of [ClimateSchedulerEntity] that the handlers read or
    write. [hass_call_ok] stands for [hass.services.async_call]: whether
    dispatching a call returns ([true]) or raises. *)
Record entity : Type := Entity {
  hass_call_ok : service_call -> bool;
  climate_entity : option string;
  schedules : gmap string (list slot);
  presets : gmap string (gmap string (option number));
  target_temperature : option number;
  hvac_mode : option HVACMode;
  preset_mode : option string;
  last_preset_change : option datetime;
  trace : list effect;
}.

Definition with_target_temperature (v : option number) (e : entity) : entity :=
  {| hass_call_ok := hass_call_ok e; climate_entity := climate_entity e;
     schedules := schedules e; presets := presets e;
     target_temperature := v; hvac_mode := hvac_mode e;
     preset_mode := preset_mode e;
     last_preset_change := last_preset_change e; trace := trace e |}.

Definition with_hvac_mode (v : option HVACMode) (e : entity) : entity :=
  {| hass_call_ok := hass_call_ok e; climate_entity := climate_entity e;
     schedules := schedules e; presets := presets e;
     target_temperature := target_temperature e; hvac_mode := v;
     preset_mode := preset_mode e;
     last_preset_change := last_preset_change e; trace := trace e |}.

Definition with_preset_mode (v : option string) (e : entity) : entity :=
  {| hass_call_ok := hass_call_ok e; climate_entity := climate_entity e;
     schedules := schedules e; presets := presets e;
     target_temperature := target_temperature e; hvac_mode := hvac_mode e;
     preset_mode := v;
     last_preset_change := last_preset_change e; trace := trace e |}.

Definition with_last_preset_change (v : option datetime) (e : entity) : entity :=
  {| hass_call_ok := hass_call_ok e; climate_entity := climate_entity e;
     schedules := schedules e; presets := presets e;
     target_temperature := target_temperature e; hvac_mode := hvac_mode e;
     preset_mode := preset_mode e;
     last_preset_change := v; trace := trace e |}.

Definition emit (ef : effect) (e : entity) : entity :=
  {| hass_call_ok := hass_call_ok e; climate_entity := climate_entity e;
     schedules := schedules e; presets := presets e;
     target_temperature := target_temperature e; hvac_mode := hvac_mode e;
     preset_mode := preset_mode e;
     last_preset_change := last_preset_change e;
     trace := trace e ++ [ef] |}.

(** The configuration entry, as far as [__init__] reads it. *)
Record ConfigEntry : Type := {
  data_climate_entity : option string;
  data_schedules : option (gmap string (list slot));
  data_presets : option (gmap string (gmap string (option number)));
  options_schedules : option (gmap string (list slot));
  options_presets : option (gmap string (gmap string (option number)));
}.

Definition _attr_preset_modes : list string :=
  [PRESET_HOME; PRESET_AWAY; PRESET_SLEEP; PRESET_VACATION].

(** [__init__] *)
Definition init (hass : service_call -> bool) (entry : ConfigEntry) : entity :=
  {| hass_call_ok := hass;
     climate_entity := data_climate_entity entry;
     schedules :=
       default (default ∅ (data_schedules entry)) (options_schedules entry);
     presets :=
       default (default ∅ (data_presets entry)) (options_presets entry);
     target_temperature := None;
     hvac_mode := Some HEAT_COOL;
     preset_mode := Some PRESET_HOME;
     last_preset_change := None;
     trace := [] |}.

(** [_async_apply_to_climate_entity]: the two calls sit in one [try]; a
    call that raises is logged and ends the block. *)
Definition _async_apply_to_climate_entity (e : entity) : entity :=
  match climate_entity e with
  | None => e
  | Some id =>
      if negb (str_truthy id) then e
      else
        let failed := emit (Log ERROR "Failed to apply settings to %s: %s") in
        let hvac (e1 : entity) : entity :=
          match hvac_mode e1 with
          | Some m =>
              if hass_call_ok e1 (set_hvac_mode id m)
              then emit (Call (set_hvac_mode id m)) e1
              else failed e1
          | None => e1
          end in
        match target_temperature e with
        | Some t =>
            if hass_call_ok e (set_temperature id t)
            then hvac (emit (Call (set_temperature id t)) e)
            else failed e
        | None => hvac e
        end
  end.

(** [async_set_temperature], its keyword arguments as a dict. *)
Definition async_set_temperature (kwargs : gmap string (option number))
    (e : entity) : entity :=
  let temperature := default None (kwargs !! ATTR_TEMPERATURE) in
  if truthy temperature
  then emit WriteHaState
         (_async_apply_to_climate_entity (with_target_temperature temperature e))
  else e.

(** [async_set_hvac_mode(hvac_mode)] *)
Definition async_set_hvac_mode (mode : option HVACMode) (e : entity) : entity :=
  emit WriteHaState (_async_apply_to_climate_entity (with_hvac_mode mode e)).

(** [x in self._attr_preset_modes] *)
Definition is_preset_mode (x : string) : bool :=
  existsb (String.eqb x) _attr_preset_modes.

(** [async_set_preset_mode(preset_mode)], the clock reading [now]. *)
Definition async_set_preset_mode (now : datetime) (mode : string)
    (e : entity) : entity :=
  if negb (is_preset_mode mode)
  then emit (Log WARNING "Invalid preset mode: %s") e
  else
    let e1 := with_preset_mode (Some mode) e in
    let e2 := with_last_preset_change (Some now) e1 in
    let preset_temp :=
      default (Some (Int 21))
        (preset_entry (presets e2) (Some mode) !! "temperature") in
    let e3 := with_target_temperature preset_temp e2 in
    emit WriteHaState (_async_apply_to_climate_entity e3).

(** [active_preset != self._attr_preset_mode] for a string [active_preset]. *)
Definition preset_differs (active_preset : string) (current : option string) : bool :=
  match current with
  | Some c => negb (String.eqb active_preset c)
  | None => true
  end.

(** The manual-override test of [_async_check_schedule]:
    [(now - last).total_seconds() / 60 < 30]. The difference of two
    datetimes is a whole number of microseconds, and the two float
    divisions keep the comparison with 30 exact, so it is stated on the
    microseconds. *)
Definition override_active (now : datetime) (last : option datetime) : bool :=
  match last with
  | Some t => now - t <? 30 * usec_per_minute
  | None => false
  end.

(** [self._schedules.get(schedule_type, [])]: the slots of today's
    schedule type, in the order the configuration stores them. *)
Definition day_schedule (now : datetime) (e : entity) : list slot :=
  default [] (schedules e !! schedule_type now).

(** [_async_check_schedule]; its argument is not read, the clock is. *)
Definition _async_check_schedule (now : datetime) (e : entity) : result entity :=
  if bool_decide (schedules e = ∅) then Ok e
  else
    let current_time := time_of now in
    match day_schedule now e with
    | [] => Ok e
    | ds =>
        do active_preset <- find_active current_time (sorted time_key ds) None;
        match active_preset with
        | Some p =>
            if str_truthy p && preset_differs p (preset_mode e)
            then
              if override_active now (last_preset_change e)
              then Ok (emit (Log DEBUG "Manual override active, skipping schedule change") e)
              else Ok (async_set_preset_mode now p
                         (emit (Log INFO "Schedule changing preset from %s to %s") e))
            else Ok e
        | None => Ok e
        end
    end.

(** [_get_next_schedule] *)
Definition _get_next_schedule (now : datetime) (e : entity) : result (option string) :=
  find_next_time (time_of now) (sorted time_key (day_schedule now e)).

(** [_get_next_temperature] *)
Definition _get_next_temperature (now : datetime) (e : entity) : result (option number) :=
  find_next_temperature (presets e) (time_of now) (sorted time_key (day_schedule now e)).

(** The stored state handed back by [async_get_last_state]: its [state]
    string and, of its attributes, the two that are read. The outer
    [option] of an attribute is the presence of the key, the inner one a
    value that may be [None]. *)
Record State : Type := {
  state : option string;
  attr_temperature : option (option number);
  attr_preset_mode : option (option string);
}.

(** [last_state.state not in (STATE_UNAVAILABLE, STATE_UNKNOWN, None)] *)
Definition state_usable (s : option string) : bool :=
  match s with
  | Some v => negb (String.eqb v STATE_UNAVAILABLE) && negb (String.eqb v STATE_UNKNOWN)
  | None => false
  end.

(** The block "Restore previous state" of [async_added_to_hass]. Of what
    [float] raises, [ValueError] and [TypeError] are caught. *)
Definition restore_state (last_state : option State) (e : entity) : result entity :=
  match last_state with
  | Some ls =>
      if state_usable (state ls) then
        match py_float (default (Some (Int 21)) (attr_temperature ls)) with
        | Ok f =>
            Ok (with_preset_mode
                  (default (Some PRESET_HOME) (attr_preset_mode ls))
                  (with_target_temperature (Some (Float f)) e))
        | Raise ValueError | Raise TypeError => Ok e
        | Raise ex => Raise ex
        end
      else Ok e
  | None => Ok e
  end.

(** [async_added_to_hass]: restoration, then the initial schedule check
    (the registration of the 5-minute timer has no effect on the entity). *)
Definition async_added_to_hass (now : datetime) (last_state : option State)
    (e : entity) : result entity :=
  do e1 <- restore_state last_state e;
  _async_check_schedule now e1.

(** ** Notions the properties are stated with *)

(** A time of day written [HH:MM]: two digits, a colon, two digits, the
    hour below 24 and the minute below 60. *)
Definition is_hhmm (s : string) : bool :=
  match s with
  | String c1 (String c2 (String c (String c3 (String c4 EmptyString)))) =>
      match digit c1, digit c2, digit c3, digit c4 with
      | Some d1, Some d2, Some d3, Some d4 =>
          Ascii.eqb c ":" && (10 * d1 + d2 <? 24) && (d3 <=? 5)
      | _, _, _, _ => false
      end
  | _ => false
  end.

(** A slot whose time, the default of a missing one included, is written
    [HH:MM]. *)
Definition well_formed (x : slot) : Prop := is_hhmm (time_key x) = true.

(** The time of day of a slot, in microseconds ([0] when [strptime]
    rejects it). *)
Definition slot_clock (x : slot) : Z := default 0 (strptime (time_key x)).

(** The loop shared by [_get_next_schedule] and [_get_next_temperature],
    returning the slot it stops at. *)
Fixpoint find_next_slot (current_time : Z) (slots : list slot)
    : result (option slot) :=
  match slots with
  | [] => Ok None
  | x :: rest =>
      match strptime (time_key x) with
      | None => Raise ValueError
      | Some slot_t =>
          if current_time <? slot_t then Ok (Some x)
          else find_next_slot current_time rest
      end
  end.

(** Slots in the order of their times of day. *)
Definition clock_le (x y : slot) : Prop := slot_clock x <= slot_clock y.

(** The slot the loop of [_async_check_schedule] last assigned from. *)
Fixpoint last_due (current_time : Z) (slots : list slot) (acc : option slot)
    : option slot :=
  match slots with
  | [] => acc
  | x :: rest =>
      if slot_clock x <=? current_time then last_due current_time rest (Some x)
      else acc
  end.

(** The first slot after [current_time] in a list of slots. *)
Fixpoint first_after (current_time : Z) (slots : list slot) : option slot :=
  match slots with
  | [] => None
  | x :: rest =>
      if current_time <? slot_clock x then Some x
      else first_after current_time rest
  end.

(** The service calls recorded in a trace. *)
Definition calls (tr : list effect) : list service_call :=
  omap (fun ef => match ef with Call c => Some c | _ => None end) tr.

(** Two entities with the same configuration and the same scheduler
    state; the traces may differ. *)
Definition same_state (e' e : entity) : Prop :=
  hass_call_ok e' = hass_call_ok e /\ climate_entity e' = climate_entity e /\
  schedules e' = schedules e /\ presets e' = presets e /\
  target_temperature e' = target_temperature e /\
  hvac_mode e' = hvac_mode e /\ preset_mode e' = preset_mode e /\
  last_preset_change e' = last_preset_change e.

(** The timer: the schedule checks made at the given instants, in turn. *)
Fixpoint run_checks (times : list datetime) (e : entity) : result entity :=
  match times with
  | [] => Ok e
  | t :: rest => do e' <- _async_check_schedule t e; run_checks rest e'
  end.

(** The instant [d] days after the epoch at [h]:[m]; day 0 is a Monday. *)
Definition at_day (d h m : Z) : datetime := d * usec_per_day + mk_time h m.

(** *** Data of the worked scenarios *)

Definition scenario_weekday : list slot :=
  [ Slot (Some "06:00") (Some "home"); Slot (Some "08:00") (Some "away");
    Slot (Some "17:00") (Some "home"); Slot (Some "22:00") (Some "sleep") ].

Definition scenario_presets : gmap string (gmap string (option number)) :=
  {[ "home" := {[ "temperature" := Some (Int 21) ]};
     "away" := {[ "temperature" := Some (Int 18) ]};
     "sleep" := {[ "temperature" := Some (Int 19) ]} ]}.

Definition scenario_entry : ConfigEntry :=
  {| data_climate_entity := Some "climate.living_room";
     data_schedules := None;
     data_presets := None;
     options_schedules := Some {[ "weekday" := scenario_weekday ]};
     options_presets := Some scenario_presets |}.

(** The entity of the scenarios as [__init__] leaves it; every service
    call is accepted. *)
Definition scenario_entity : entity := init (fun _ => true) scenario_entry.

(** An entity configured without presets and without schedules. *)
Definition bare_entity : entity :=
  init (fun _ => true)
    {| data_climate_entity := Some "climate.living_room";
       data_schedules := None; data_presets := None;
       options_schedules := None; options_presets := None |}.

(** An entity whose weekday schedule has two slots ten minutes apart. *)
Definition dense_entity : entity :=
  init (fun _ => true)
    {| data_climate_entity := Some "climate.living_room";
       data_schedules := None; data_presets := None;
       options_schedules :=
         Some {[ "weekday" :=
                   [ Slot (Some "06:00") (Some "home");
                     Slot (Some "08:00") (Some "away");
                     Slot (Some "08:10") (Some "sleep") ] ]};
       options_presets := Some scenario_presets |}.

(** An entity whose weekday schedule names a preset, ["eco"], that is not
    one of the supported presets. *)
Definition eco_entity : entity :=
  init (fun _ => true)
    {| data_climate_entity := Some "climate.living_room";
       data_schedules := None; data_presets := None;
       options_schedules :=
         Some {[ "weekday" :=
                   [ Slot (Some "06:00") (Some "home");
                     Slot (Some "10:30") (Some "eco") ] ]};
       options_presets := Some scenario_presets |}.

(** A stored state whose temperature is [None] and whose preset is the
    supported preset ["away"]. *)
Definition snapshot_without_temperature : State :=
  {| state := Some "heat_cool";
     attr_temperature := Some None;
     attr_preset_mode := Some (Some "away") |}.

(** A stored state with both attributes in order. *)
Definition snapshot_complete : State :=
  {| state := Some "heat_cool";
     attr_temperature := Some (Some (Int 18));
     attr_preset_mode := Some (Some "away") |}.

(** ** The rest of the entity *)

(** The dict [extra_state_attributes] returns; its values are evaluated
    in the order of the fields. *)
Record StateAttributes : Type := {
  scheduled_entity : option string;
  active_preset : option string;
  next_schedule : option string;
  next_temperature : option number;
}.

(** [extra_state_attributes] *)
Definition extra_state_attributes (now : datetime) (e : entity)
    : result StateAttributes :=
  do ns <- _get_next_schedule now e;
  do nt <- _get_next_temperature now e;
  Ok {| scheduled_entity := climate_entity e;
        active_preset := preset_mode e;
        next_schedule := ns;
        next_temperature := nt |}.

(** What the platform asks of the entity: the timer callback and the
    three service handlers. *)
Inductive command : Type :=
  | Tick (now : datetime)
  | SetPresetMode (now : datetime) (mode : string)
  | SetTemperature (kwargs : gmap string (option number))
  | SetHvacMode (mode : option HVACMode).

Definition step (c : command) (e : entity) : result entity :=
  match c with
  | Tick now => _async_check_schedule now e
  | SetPresetMode now mode => Ok (async_set_preset_mode now mode e)
  | SetTemperature kwargs => Ok (async_set_temperature kwargs e)
  | SetHvacMode mode => Ok (async_set_hvac_mode mode e)
  end.

(** The commands of a list, in turn; a raise ends the run. *)
Fixpoint run (cs : list command) (e : entity) : result entity :=
  match cs with
  | [] => Ok e
  | c :: rest => do e' <- step c e; run rest e'
  end.

(** The active preset is one of the supported presets. *)
Definition preset_supported (e : entity) : Prop :=
  exists p, preset_mode e = Some p /\ is_preset_mode p = true.

(** A slot whose time [strptime] reads. *)
Definition parseable (x : slot) : Prop := is_Some (strptime (time_key x)).

(** ** config_flow.py *)

Module ConfigFlow.

(** [CONF_NAME] of the host platform. *)
Definition CONF_NAME : string := "name".

Definition DEFAULT_SCHEDULES : gmap string (list slot) :=
  {[ "weekday" :=
       [ Slot (Some "06:00") (Some PRESET_HOME);
         Slot (Some "08:00") (Some PRESET_AWAY);
         Slot (Some "17:00") (Some PRESET_HOME);
         Slot (Some "22:00") (Some PRESET_SLEEP) ];
     "weekend" :=
       [ Slot (Some "08:00") (Some PRESET_HOME);
         Slot (Some "23:00") (Some PRESET_SLEEP) ] ]}.

Definition DEFAULT_PRESETS : gmap string (gmap string (option number)) :=
  {[ PRESET_HOME := {[ "temperature" := Some (Int 21) ]};
     PRESET_AWAY := {[ "temperature" := Some (Int 18) ]};
     PRESET_SLEEP := {[ "temperature" := Some (Int 19) ]};
     PRESET_VACATION := {[ "temperature" := Some (Int 16) ]} ]}.

(** The values the [data] and [options] dicts of a configuration entry
    hold under the keys the two flows write. *)
Inductive conf_value : Type :=
  | CStr (s : string)
  | CNum (n : number)
  | CSchedules (v : gmap string (list slot))
  | CPresets (v : gmap string (gmap string (option number))).

(** A configuration entry: its [data] and its [options]. *)
Record Entry : Type := {
  entry_data : gmap string conf_value;
  entry_options : gmap string conf_value;
}.

(** [d.get(key)] for the three keys [__init__] reads. A key that holds a
    value of another kind, which neither flow writes, reads as absent. *)
Definition get_str (d : gmap string conf_value) (key : string) : option string :=
  match d !! key with
  | Some (CStr s) => Some s
  | _ => None
  end.

Definition get_schedules (d : gmap string conf_value)
    : option (gmap string (list slot)) :=
  match d !! CONF_SCHEDULES with
  | Some (CSchedules v) => Some v
  | _ => None
  end.

Definition get_presets (d : gmap string conf_value)
    : option (gmap string (gmap string (option number))) :=
  match d !! CONF_PRESETS with
  | Some (CPresets v) => Some v
  | _ => None
  end.

(** The entry as [__init__] reads it. *)
Definition as_config_entry (r : Entry) : ConfigEntry :=
  {| data_climate_entity := get_str (entry_data r) CONF_CLIMATE_ENTITY;
     data_schedules := get_schedules (entry_data r);
     data_presets := get_presets (entry_data r);
     options_schedules := get_schedules (entry_options r);
     options_presets := get_presets (entry_options r) |}.

(** The default of a field of a form. *)
Inductive form_default : Type :=
  | NoDefault
  | DefaultStr (s : string)
  | DefaultTemp (t : option number).

Inductive FlowResult : Type :=
  | create_entry (title : conf_value) (data : gmap string conf_value)
      (options : option (gmap string conf_value))
  | show_form (step_id : string) (fields : list (string * form_default))
  | abort (reason : string).

(** [ClimateSchedulerConfigFlow.async_step_user]. [is_configured] is the
    platform's test of [_abort_if_unique_id_configured]; [None] is the
    [KeyError] of [user_input[CONF_CLIMATE_ENTITY]]. *)
Definition async_step_user (is_configured : conf_value -> bool)
    (user_input : option (gmap string conf_value)) : option FlowResult :=
  match user_input with
  | Some ui =>
      match ui !! CONF_CLIMATE_ENTITY with
      | Some unique_id =>
          if is_configured unique_id then Some (abort "already_configured")
          else
            Some (create_entry
                    (default (CStr DEFAULT_NAME) (ui !! CONF_NAME))
                    ui
                    (Some {[ CONF_SCHEDULES := CSchedules DEFAULT_SCHEDULES;
                             CONF_PRESETS := CPresets DEFAULT_PRESETS ]}))
      | None => None
      end
  | None =>
      Some (show_form "user"
              [ (CONF_NAME, DefaultStr DEFAULT_NAME);
                (CONF_CLIMATE_ENTITY, NoDefault) ])
  end.

(** The default of the temperature field of a preset in the options
    form: [presets.get(preset, {}).get("temperature", fallback)]. *)
Definition temperature_default
    (presets : gmap string (gmap string (option number)))
    (preset : string) (fallback : Z) : form_default :=
  DefaultTemp
    (default (Some (Int fallback))
       (preset_entry presets (Some preset) !! "temperature")).

(** [ClimateSchedulerOptionsFlow.async_step_init] for the entry the flow
    was created with. *)
Definition async_step_init (config_entry : Entry)
    (user_input : option (gmap string conf_value)) : FlowResult :=
  match user_input with
  | Some ui => create_entry (CStr "") ui None
  | None =>
      let presets :=
        default DEFAULT_PRESETS (get_presets (entry_options config_entry)) in
      show_form "init"
        [ (String.append "temp_" PRESET_HOME,
           temperature_default presets PRESET_HOME 21);
          (String.append "temp_" PRESET_AWAY,
           temperature_default presets PRESET_AWAY 18);
          (String.append "temp_" PRESET_SLEEP,
           temperature_default presets PRESET_SLEEP 19);
          (String.append "temp_" PRESET_VACATION,
           temperature_default presets PRESET_VACATION 16) ]
  end.

(** What the platform does with the entry a flow creates: that of the
    user flow becomes the configuration entry, the data of that of the
    options flow become the options of the entry the flow belongs to. *)
Definition entry_of_user_flow (r : FlowResult) : option Entry :=
  match r with
  | create_entry _ d o => Some {| entry_data := d; entry_options := default ∅ o |}
  | _ => None
  end.

Definition entry_after_options_flow (r : FlowResult) (cur : Entry) : Entry :=
  match r with
  | create_entry _ d _ => {| entry_data := entry_data cur; entry_options := d |}
  | _ => cur
  end.

(** The dicts the schemas of the two forms let through: their required
    keys and nothing else. *)
Definition user_form (name climate : string) : gmap string conf_value :=
  {[ CONF_NAME := CStr name; CONF_CLIMATE_ENTITY := CStr climate ]}.

Definition options_form (home away sleep vacation : number)
    : gmap string conf_value :=
  {[ String.append "temp_" PRESET_HOME := CNum home;
     String.append "temp_" PRESET_AWAY := CNum away;
     String.append "temp_" PRESET_SLEEP := CNum sleep;
     String.append "temp_" PRESET_VACATION := CNum vacation ]}.

End ConfigFlow.

(** ** Times written [HH:MM] *)

Lemma digit_spec c d :
  digit c = Some d -> Z.of_N (N_of_ascii c) = d + 48 /\ 0 <= d <= 9.
Proof.
  unfold digit. intros H.
  destruct (_ && _) eqn:E; [|discriminate].
  injection H as <-. apply andb_true_iff in E as [E1 E2]. lia.
Qed.

Lemma is_hhmm_shape s :
  is_hhmm s = true ->
  exists c1 c2 c3 c4 d1 d2 d3 d4,
    s = String c1 (String c2 (String ":" (String c3 (String c4 EmptyString)))) /\
    digit c1 = Some d1 /\ digit c2 = Some d2 /\
    digit c3 = Some d3 /\ digit c4 = Some d4 /\
    10 * d1 + d2 < 24 /\ d3 <= 5.
Proof.
  destruct s as [|c1 [|c2 [|c [|c3 [|c4 [|? ?]]]]]]; simpl; try discriminate.
  destruct (digit c1) as [d1|] eqn:E1; [|discriminate].
  destruct (digit c2) as [d2|] eqn:E2; [|discriminate].
  destruct (digit c3) as [d3|] eqn:E3; [|discriminate].
  destruct (digit c4) as [d4|] eqn:E4; [|discriminate].
  intros H. apply andb_true_iff in H as [H H3].
  apply andb_true_iff in H as [H0 H12].
  apply Ascii.eqb_eq in H0. subst c.
  exists c1, c2, c3, c4, d1, d2, d3, d4. repeat split; auto; lia.
Qed.

Lemma strptime_digits c1 c2 c3 c4 d1 d2 d3 d4 :
  digit c1 = Some d1 -> digit c2 = Some d2 ->
  digit c3 = Some d3 -> digit c4 = Some d4 ->
  10 * d1 + d2 < 24 -> d3 <= 5 ->
  strptime (String c1 (String c2 (String ":" (String c3 (String c4 EmptyString)))))
  = Some (mk_time (10 * d1 + d2) (10 * d3 + d4)).
Proof.
  intros E1 E2 E3 E4 Hh Hm.
  apply digit_spec in E1 as H1. apply digit_spec in E2 as H2.
  unfold strptime, match_hour, match_minute, two_digits, colon.
  rewrite E1, E2. simpl.
  replace ((d1 =? 2) && (d2 <=? 3) || (d1 <=? 1)) with true.
  2:{ symmetry. apply orb_true_iff. rewrite andb_true_iff. lia. }
  simpl. rewrite E3, E4.
  replace (d3 <=? 5) with true by lia. reflexivity.
Qed.

(** On times written [HH:MM] the order of the strings is the order of the
    times of day. *)
Lemma ltb_hhmm s s' t t' :
  is_hhmm s = true -> is_hhmm s' = true ->
  strptime s = Some t -> strptime s' = Some t' ->
  String.ltb s s' = (t <? t').
Proof.
  intros Hs Hs'.
  destruct (is_hhmm_shape s Hs) as (c1&c2&c3&c4&d1&d2&d3&d4&->&E1&E2&E3&E4&Hh&Hm).
  destruct (is_hhmm_shape s' Hs') as (a1&a2&a3&a4&b1&b2&b3&b4&->&F1&F2&F3&F4&Gh&Gm).
  rewrite (strptime_digits _ _ _ _ _ _ _ _ E1 E2 E3 E4 Hh Hm).
  rewrite (strptime_digits _ _ _ _ _ _ _ _ F1 F2 F3 F4 Gh Gm).
  intros [= <-] [= <-].
  apply digit_spec in E1 as [E1 ?], E2 as [E2 ?], E3 as [E3 ?], E4 as [E4 ?].
  apply digit_spec in F1 as [F1 ?], F2 as [F2 ?], F3 as [F3 ?], F4 as [F4 ?].
  unfold String.ltb, mk_time, usec_per_minute. simpl. unfold Ascii.compare.
  rewrite <- !N2Z.inj_compare, E1, E2, E3, E4, F1, F2, F3, F4.
  destruct (Z.compare_spec (d1 + 48) (b1 + 48));
    destruct (Z.compare_spec (d2 + 48) (b2 + 48));
    destruct (Z.compare_spec (d3 + 48) (b3 + 48));
    destruct (Z.compare_spec (d4 + 48) (b4 + 48));
    simpl; symmetry; first [apply Z.ltb_lt | apply Z.ltb_ge]; lia.
Qed.

(** ** The sorted day schedule *)

Lemma well_formed_clock x :
  well_formed x -> strptime (time_key x) = Some (slot_clock x).
Proof.
  intros H. destruct (is_hhmm_shape _ H)
    as (c1&c2&c3&c4&d1&d2&d3&d4&E&E1&E2&E3&E4&Hh&Hm).
  unfold slot_clock. rewrite E.
  rewrite (strptime_digits _ _ _ _ _ _ _ _ E1 E2 E3 E4 Hh Hm). reflexivity.
Qed.

Lemma ltb_clock x y :
  well_formed x -> well_formed y ->
  String.ltb (time_key x) (time_key y) = (slot_clock x <? slot_clock y).
Proof.
  intros Hx Hy. apply ltb_hhmm; auto using well_formed_clock.
Qed.

Section SortedFacts.
Context {A : Type} (key : A -> string).

Lemma insert_sorted_elem (x y : A) (l : list A) :
  y ∈ insert_sorted key x l <-> y = x \/ y ∈ l.
Proof.
  induction l as [|z l IH]; simpl.
  - rewrite list_elem_of_singleton, elem_of_nil. tauto.
  - destruct (String.ltb (key z) (key x)).
    + rewrite !elem_of_cons, IH. tauto.
    + rewrite !elem_of_cons. tauto.
Qed.

Lemma sorted_elem (y : A) (l : list A) : y ∈ sorted key l <-> y ∈ l.
Proof.
  induction l as [|x l IH]; simpl; [reflexivity|].
  rewrite insert_sorted_elem, IH, elem_of_cons. tauto.
Qed.

Lemma sorted_Forall (P : A -> Prop) (l : list A) :
  Forall P l -> Forall P (sorted key l).
Proof.
  rewrite !Forall_forall. intros H y Hy. apply H, sorted_elem, Hy.
Qed.

End SortedFacts.

Lemma insert_sorted_StronglySorted x l :
  well_formed x -> Forall well_formed l ->
  StronglySorted clock_le l ->
  StronglySorted clock_le (insert_sorted time_key x l).
Proof.
  intros Hx Hl Hs. induction Hs as [|y l Hs IH Hy]; simpl.
  - repeat constructor.
  - apply Forall_cons in Hl as [Hwy Hl].
    rewrite (ltb_clock y x Hwy Hx).
    destruct (slot_clock y <? slot_clock x) eqn:E.
    + constructor; [auto|].
      apply Forall_forall. intros z Hz.
      apply insert_sorted_elem in Hz as [->|Hz].
      * unfold clock_le. lia.
      * rewrite Forall_forall in Hy. auto.
    + constructor; [constructor; auto|].
      constructor; [unfold clock_le; lia|].
      eapply Forall_impl; [exact Hy|]. unfold clock_le. intros; simpl in *. lia.
Qed.

Lemma sorted_StronglySorted l :
  Forall well_formed l -> StronglySorted clock_le (sorted time_key l).
Proof.
  induction l as [|x l IH]; intros H; simpl; [constructor|].
  apply Forall_cons in H as [Hx Hl].
  apply insert_sorted_StronglySorted; auto using sorted_Forall.
Qed.

(** ** The loop that finds the current slot *)

Lemma last_due_acc ct l a :
  last_due ct l a =
  match last_due ct l None with Some s => Some s | None => a end.
Proof.
  revert a. induction l as [|x l IH]; intros a; simpl; [reflexivity|].
  destruct (slot_clock x <=? ct); [|reflexivity].
  rewrite (IH (Some x)). destruct (last_due ct l None); reflexivity.
Qed.

Lemma find_active_last_due ct l acc :
  Forall well_formed l ->
  find_active ct l acc =
  Ok (match last_due ct l None with Some s => slot_preset s | None => acc end).
Proof.
  intros H. revert acc. induction H as [|x l Hx Hl IH]; intros acc; simpl.
  - reflexivity.
  - rewrite (well_formed_clock x Hx).
    destruct (slot_clock x <=? ct); [|reflexivity].
    rewrite IH, (last_due_acc ct l (Some x)).
    destruct (last_due ct l None); reflexivity.
Qed.

Lemma last_due_sorted ct l :
  StronglySorted clock_le l ->
  match last_due ct l None with
  | Some s =>
      s ∈ l /\ slot_clock s <= ct /\
      forall x, x ∈ l -> slot_clock x <= ct -> slot_clock x <= slot_clock s
  | None => forall x, x ∈ l -> ct < slot_clock x
  end.
Proof.
  induction 1 as [|y l Hs IH Hy]; simpl.
  - intros x Hx. apply elem_of_nil in Hx. contradiction.
  - rewrite Forall_forall in Hy. unfold clock_le in Hy.
    destruct (slot_clock y <=? ct) eqn:E.
    + rewrite last_due_acc. destruct (last_due ct l None) as [s|].
      * destruct IH as (Hin & Hle & Hmax). repeat split.
        -- apply elem_of_cons. auto.
        -- exact Hle.
        -- intros x Hx Hxc. apply elem_of_cons in Hx as [->|Hx]; auto.
      * repeat split.
        -- apply elem_of_cons. auto.
        -- lia.
        -- intros x Hx Hxc. apply elem_of_cons in Hx as [->|Hx]; [lia|].
           specialize (IH x Hx). lia.
    + intros x Hx. apply elem_of_cons in Hx as [->|Hx]; [lia|].
      specialize (Hy x Hx). lia.
Qed.

(** ** The loop that finds the next slot *)

Lemma find_next_time_slot ct l :
  find_next_time ct l =
  do s <- find_next_slot ct l; Ok (s ≫= slot_time).
Proof.
  induction l as [|x l IH]; simpl; [reflexivity|].
  destruct (strptime (time_key x)); [|reflexivity].
  destruct (ct <? z); [reflexivity|exact IH].
Qed.

Lemma find_next_temperature_slot presets ct l :
  find_next_temperature presets ct l =
  do s <- find_next_slot ct l;
  Ok (match s with
      | Some x => default None (preset_entry presets (slot_preset x) !! "temperature")
      | None => None
      end).
Proof.
  induction l as [|x l IH]; simpl; [reflexivity|].
  destruct (strptime (time_key x)); [|reflexivity].
  destruct (ct <? z); [reflexivity|exact IH].
Qed.

Lemma find_next_slot_Some ct l S :
  find_next_slot ct l = Ok (Some S) ->
  S ∈ l /\ exists t, strptime (time_key S) = Some t /\ ct < t.
Proof.
  induction l as [|x l IH]; simpl; [discriminate|].
  destruct (strptime (time_key x)) as [t|] eqn:E; [|discriminate].
  destruct (ct <? t) eqn:Et.
  - intros [= <-]. split; [apply elem_of_cons; auto|].
    exists t. split; [assumption|lia].
  - intros H. destruct (IH H) as [Hin Ht]. split; [apply elem_of_cons|]; auto.
Qed.

Lemma find_next_slot_first_after ct l :
  Forall well_formed l -> find_next_slot ct l = Ok (first_after ct l).
Proof.
  induction 1 as [|x l Hx Hl IH]; simpl; [reflexivity|].
  rewrite (well_formed_clock x Hx).
  destruct (ct <? slot_clock x); [reflexivity|exact IH].
Qed.

Lemma first_after_sorted ct l :
  StronglySorted clock_le l ->
  match first_after ct l with
  | Some s =>
      s ∈ l /\ ct < slot_clock s /\
      forall x, x ∈ l -> ct < slot_clock x -> slot_clock s <= slot_clock x
  | None => forall x, x ∈ l -> slot_clock x <= ct
  end.
Proof.
  induction 1 as [|y l Hs IH Hy]; simpl.
  - intros x Hx. apply elem_of_nil in Hx. contradiction.
  - rewrite Forall_forall in Hy. unfold clock_le in Hy.
    destruct (ct <? slot_clock y) eqn:E.
    + repeat split.
      * apply elem_of_cons. auto.
      * lia.
      * intros x Hx _. apply elem_of_cons in Hx as [->|Hx]; [lia|auto].
    + destruct (first_after ct l) as [s|].
      * destruct IH as (Hin & Hlt & Hmin). repeat split.
        -- apply elem_of_cons. auto.
        -- exact Hlt.
        -- intros x Hx Hxc. apply elem_of_cons in Hx as [->|Hx]; [lia|auto].
      * intros x Hx. apply elem_of_cons in Hx as [->|Hx]; [lia|auto].
Qed.

Lemma time_of_nonneg now : 0 <= time_of now < usec_per_day.
Proof. unfold time_of. apply Z.mod_pos_bound. reflexivity. Qed.

(** A slot without a time is keyed ["00:00"] and so is never after the
    current time. *)
Lemma slot_after_has_time ct S :
  0 <= ct -> ct < slot_clock S -> exists s, slot_time S = Some s.
Proof.
  intros H0 H. destruct S as [[s|] p]; [eauto|].
  change (slot_clock (Slot None p)) with 0 in H. lia.
Qed.

(** ** Slots with equal times: the sort keeps their input order *)

Lemma last_due_elem ct l s :
  StronglySorted clock_le l -> last_due ct l None = Some s ->
  s ∈ l /\ slot_clock s <= ct.
Proof.
  intros Hs E. pose proof (last_due_sorted ct l Hs) as H.
  rewrite E in H. tauto.
Qed.

Lemma first_after_elem ct l s :
  StronglySorted clock_le l -> first_after ct l = Some s ->
  s ∈ l /\ ct < slot_clock s.
Proof.
  intros Hs E. pose proof (first_after_sorted ct l Hs) as H.
  rewrite E in H. tauto.
Qed.

Lemma last_due_insert ct x l :
  well_formed x -> Forall well_formed l -> StronglySorted clock_le l ->
  last_due ct (insert_sorted time_key x l) None =
  if slot_clock x <=? ct then
    match last_due ct l None with
    | Some s => if slot_clock s <? slot_clock x then Some x else Some s
    | None => Some x
    end
  else last_due ct l None.
Proof.
  intros Hx Hl Hs. induction Hs as [|y l Hs IH Hy]; simpl.
  - destruct (slot_clock x <=? ct); reflexivity.
  - apply Forall_cons in Hl as [Hwy Hl]. specialize (IH Hl).
    rewrite (ltb_clock y x Hwy Hx).
    destruct (slot_clock y <? slot_clock x) eqn:Eyx; simpl.
    + destruct (slot_clock y <=? ct) eqn:Ey.
      * rewrite (last_due_acc ct (insert_sorted _ _ _)), IH.
        rewrite (last_due_acc ct l (Some y)).
        destruct (slot_clock x <=? ct); [|reflexivity].
        destruct (last_due ct l None) as [s|].
        -- destruct (slot_clock s <? slot_clock x); reflexivity.
        -- rewrite Eyx. reflexivity.
      * replace (slot_clock x <=? ct) with false by lia. reflexivity.
    + destruct (slot_clock x <=? ct) eqn:Ex; [|
        replace (slot_clock y <=? ct) with false by lia; reflexivity].
      destruct (slot_clock y <=? ct) eqn:Ey; [|reflexivity].
      rewrite (last_due_acc ct l (Some y)).
      destruct (last_due ct l None) as [s|] eqn:Es.
      * destruct (last_due_elem ct l s Hs Es) as [Hin _].
        rewrite Forall_forall in Hy. specialize (Hy s Hin). unfold clock_le in Hy.
        replace (slot_clock s <? slot_clock x) with false by lia. reflexivity.
      * rewrite Eyx. reflexivity.
Qed.

Lemma first_after_insert ct x l :
  well_formed x -> Forall well_formed l -> StronglySorted clock_le l ->
  first_after ct (insert_sorted time_key x l) =
  if ct <? slot_clock x then
    match first_after ct l with
    | Some s => if slot_clock s <? slot_clock x then Some s else Some x
    | None => Some x
    end
  else first_after ct l.
Proof.
  intros Hx Hl Hs. induction Hs as [|y l Hs IH Hy]; simpl.
  - destruct (ct <? slot_clock x); reflexivity.
  - apply Forall_cons in Hl as [Hwy Hl]. specialize (IH Hl).
    rewrite (ltb_clock y x Hwy Hx).
    destruct (slot_clock y <? slot_clock x) eqn:Eyx; simpl.
    + destruct (ct <? slot_clock y) eqn:Ey.
      * replace (ct <? slot_clock x) with true by lia. rewrite Eyx. reflexivity.
      * exact IH.
    + destruct (ct <? slot_clock x) eqn:Ex; [|reflexivity].
      destruct (ct <? slot_clock y) eqn:Ey.
      * rewrite Eyx. reflexivity.
      * destruct (first_after ct l) as [s|] eqn:Es; [|reflexivity].
        destruct (first_after_elem ct l s Hs Es) as [Hin _].
        rewrite Forall_forall in Hy. specialize (Hy s Hin). unfold clock_le in Hy.
        replace (slot_clock s <? slot_clock x) with false by lia. reflexivity.
Qed.

(** Among the slots that are due with the latest time, the loop ends on
    the one supplied last. *)
Lemma active_preset_tie_break ct l1 S l2 :
  Forall well_formed (l1 ++ S :: l2) ->
  slot_clock S <= ct ->
  (forall x, x ∈ l1 -> slot_clock x <= ct -> slot_clock x <= slot_clock S) ->
  (forall x, x ∈ l2 -> slot_clock x <= ct -> slot_clock x < slot_clock S) ->
  find_active ct (sorted time_key (l1 ++ S :: l2)) None = Ok (slot_preset S).
Proof.
  intros Hwf HS H1 H2.
  rewrite find_active_last_due by (apply sorted_Forall, Hwf).
  cut (last_due ct (sorted time_key (l1 ++ S :: l2)) None = Some S).
  { intros ->. reflexivity. }
  induction l1 as [|x l1 IH]; simpl in *.
  - apply Forall_cons in Hwf as [HwS Hw2].
    rewrite last_due_insert; auto using sorted_Forall, sorted_StronglySorted.
    replace (slot_clock S <=? ct) with true by lia.
    destruct (last_due ct (sorted time_key l2) None) as [s|] eqn:Es; [|reflexivity].
    apply last_due_elem in Es as [Hin Hle]; [|auto using sorted_StronglySorted].
    apply sorted_elem in Hin. specialize (H2 s Hin Hle).
    replace (slot_clock s <? slot_clock S) with true by lia. reflexivity.
  - apply Forall_cons in Hwf as [Hwx Hw].
    rewrite last_due_insert; auto using sorted_Forall, sorted_StronglySorted.
    rewrite IH; auto.
    2:{ intros y Hy. apply H1, elem_of_cons. auto. }
    destruct (slot_clock x <=? ct) eqn:Ex; [|reflexivity].
    assert (slot_clock x <= slot_clock S).
    { apply H1; [apply elem_of_cons; auto|lia]. }
    replace (slot_clock S <? slot_clock x) with false by lia. reflexivity.
Qed.

(** Among the slots after the current time with the earliest time, the
    next slot is the one supplied first. *)
Lemma next_slot_tie_break ct l1 S l2 :
  Forall well_formed (l1 ++ S :: l2) ->
  ct < slot_clock S ->
  (forall x, x ∈ l1 -> ct < slot_clock x -> slot_clock S < slot_clock x) ->
  (forall x, x ∈ l2 -> ct < slot_clock x -> slot_clock S <= slot_clock x) ->
  find_next_slot ct (sorted time_key (l1 ++ S :: l2)) = Ok (Some S).
Proof.
  intros Hwf HS H1 H2.
  rewrite find_next_slot_first_after by (apply sorted_Forall, Hwf). f_equal.
  induction l1 as [|x l1 IH]; simpl in *.
  - apply Forall_cons in Hwf as [HwS Hw2].
    rewrite first_after_insert; auto using sorted_Forall, sorted_StronglySorted.
    replace (ct <? slot_clock S) with true by lia.
    destruct (first_after ct (sorted time_key l2)) as [s|] eqn:Es; [|reflexivity].
    apply first_after_elem in Es as [Hin Hlt]; [|auto using sorted_StronglySorted].
    apply sorted_elem in Hin. specialize (H2 s Hin Hlt).
    replace (slot_clock s <? slot_clock S) with false by lia. reflexivity.
  - apply Forall_cons in Hwf as [Hwx Hw].
    rewrite first_after_insert; auto using sorted_Forall, sorted_StronglySorted.
    rewrite IH; auto.
    2:{ intros y Hy. apply H1, elem_of_cons. auto. }
    destruct (ct <? slot_clock x) eqn:Ex; [|reflexivity].
    assert (slot_clock S < slot_clock x).
    { apply H1; [apply elem_of_cons; auto|lia]. }
    replace (slot_clock S <? slot_clock x) with true by lia. reflexivity.
Qed.

(** ** The current slot and the next slot of a day schedule *)

(** C4. For a day schedule whose times are written HH:MM, in whatever
    order it is stored, the loop of [_async_check_schedule] over the
    sorted schedule ends without raising; when some slot has its time at
    or before the current time, the result is the preset of a slot whose
    time is the latest among those; when the current time precedes every
    slot, the result is [None]. *)
Theorem find_active_latest_due (now : datetime) (l : list slot) :
  Forall well_formed l ->
  exists r,
    find_active (time_of now) (sorted time_key l) None = Ok r /\
    ((exists x, x ∈ l /\ slot_clock x <= time_of now) ->
     exists S, S ∈ l /\ slot_clock S <= time_of now /\
       (forall x, x ∈ l -> slot_clock x <= time_of now ->
                  slot_clock x <= slot_clock S) /\
       r = slot_preset S) /\
    ((forall x, x ∈ l -> time_of now < slot_clock x) -> r = None).
Proof.
  intros Hwf. set (ct := time_of now).
  rewrite find_active_last_due by (apply sorted_Forall, Hwf).
  eexists. split; [reflexivity|].
  pose proof (last_due_sorted ct _ (sorted_StronglySorted l Hwf)) as H.
  destruct (last_due ct (sorted time_key l) None) as [s|].
  - destruct H as (Hin & Hle & Hmax). split.
    + intros _. exists s. repeat split.
      * apply sorted_elem in Hin. exact Hin.
      * exact Hle.
      * intros x Hx. apply Hmax, sorted_elem, Hx.
    + intros Hall. apply sorted_elem in Hin. specialize (Hall s Hin). lia.
  - split; [|reflexivity].
    intros (x & Hx & Hxc). apply (sorted_elem time_key) in Hx.
    specialize (H x Hx). lia.
Qed.

Lemma find_active_latest_due_witness :
  Forall well_formed scenario_weekday /\
  exists r,
    find_active (time_of (at_day 1 7 30)) (sorted time_key scenario_weekday) None
      = Ok r /\
    ((exists x, x ∈ scenario_weekday /\ slot_clock x <= time_of (at_day 1 7 30)) ->
     exists S, S ∈ scenario_weekday /\ slot_clock S <= time_of (at_day 1 7 30) /\
       (forall x, x ∈ scenario_weekday -> slot_clock x <= time_of (at_day 1 7 30) ->
                  slot_clock x <= slot_clock S) /\
       r = slot_preset S) /\
    ((forall x, x ∈ scenario_weekday -> time_of (at_day 1 7 30) < slot_clock x) ->
     r = None).
Proof.
  split.
  - repeat (constructor; [reflexivity|]). constructor.
  - apply (find_active_latest_due (at_day 1 7 30) scenario_weekday).
    repeat (constructor; [reflexivity|]). constructor.
Defined.

(** C5. The loop of [_get_next_schedule] never returns the time of a slot
    that is not strictly after the current time. For a day schedule whose
    times are written HH:MM it ends without raising; when some slot lies
    strictly after the current time, it returns the time of a slot whose
    time is the smallest among those; when no slot lies strictly after,
    it returns [None]. *)
Theorem find_next_time_earliest_after (now : datetime) (l : list slot) :
  (forall s, find_next_time (time_of now) (sorted time_key l) = Ok (Some s) ->
     exists S t, S ∈ l /\ slot_time S = Some s /\
       strptime s = Some t /\ time_of now < t) /\
  (Forall well_formed l ->
   exists r,
     find_next_time (time_of now) (sorted time_key l) = Ok r /\
     ((exists x, x ∈ l /\ time_of now < slot_clock x) ->
      exists S s, S ∈ l /\ time_of now < slot_clock S /\
        (forall x, x ∈ l -> time_of now < slot_clock x ->
                   slot_clock S <= slot_clock x) /\
        slot_time S = Some s /\ r = Some s) /\
     ((forall x, x ∈ l -> slot_clock x <= time_of now) -> r = None)).
Proof.
  pose proof (time_of_nonneg now) as Hct. set (ct := time_of now) in *.
  split.
  - intros s. rewrite find_next_time_slot.
    destruct (find_next_slot ct (sorted time_key l)) as [[S|]|] eqn:E;
      simpl; try discriminate.
    intros [= Hs]. apply find_next_slot_Some in E as (Hin & t & Ht & Hlt).
    apply sorted_elem in Hin. exists S, t. repeat split; auto.
    unfold time_key in Ht. rewrite Hs in Ht. exact Ht.
  - intros Hwf. rewrite find_next_time_slot.
    rewrite find_next_slot_first_after by (apply sorted_Forall, Hwf).
    eexists. split; [reflexivity|]. simpl.
    pose proof (first_after_sorted ct _ (sorted_StronglySorted l Hwf)) as H.
    destruct (first_after ct (sorted time_key l)) as [S|].
    + destruct H as (Hin & Hlt & Hmin). apply sorted_elem in Hin.
      destruct (slot_after_has_time ct S) as [s Hs]; [lia|exact Hlt|].
      split.
      * intros _. exists S, s.
        split; [exact Hin|]. split; [exact Hlt|].
        split; [intros x Hx; apply Hmin, sorted_elem, Hx|].
        split; [exact Hs|]. simpl. exact Hs.
      * intros Hall. specialize (Hall S Hin). lia.
    + split; [|reflexivity].
      intros (x & Hx & Hxc). apply (sorted_elem time_key) in Hx.
      specialize (H x Hx). lia.
Qed.

Lemma find_next_time_earliest_after_witness :
  Forall well_formed scenario_weekday /\
  exists r,
    find_next_time (time_of (at_day 1 7 30)) (sorted time_key scenario_weekday)
      = Ok r /\
    ((exists x, x ∈ scenario_weekday /\ time_of (at_day 1 7 30) < slot_clock x) ->
     exists S s, S ∈ scenario_weekday /\ time_of (at_day 1 7 30) < slot_clock S /\
       (forall x, x ∈ scenario_weekday -> time_of (at_day 1 7 30) < slot_clock x ->
                  slot_clock S <= slot_clock x) /\
       slot_time S = Some s /\ r = Some s) /\
    ((forall x, x ∈ scenario_weekday -> slot_clock x <= time_of (at_day 1 7 30)) ->
     r = None).
Proof.
  split.
  - repeat (constructor; [reflexivity|]). constructor.
  - apply (find_next_time_earliest_after (at_day 1 7 30) scenario_weekday).
    repeat (constructor; [reflexivity|]). constructor.
Defined.

(** ** What the handlers leave alone *)

Lemma same_state_refl e : same_state e e.
Proof. unfold same_state. tauto. Qed.

Lemma same_state_trans e1 e2 e3 :
  same_state e1 e2 -> same_state e2 e3 -> same_state e1 e3.
Proof. unfold same_state. intuition congruence. Qed.

Lemma same_state_emit ef e : same_state (emit ef e) e.
Proof. unfold same_state. simpl. tauto. Qed.

Lemma apply_same_state e : same_state (_async_apply_to_climate_entity e) e.
Proof.
  unfold _async_apply_to_climate_entity.
  destruct (climate_entity e) as [id|] eqn:Eid; [|apply same_state_refl].
  destruct (negb (str_truthy id)); [apply same_state_refl|].
  destruct (target_temperature e) as [t|] eqn:Et.
  - destruct (hass_call_ok e (set_temperature id t));
      [|apply same_state_emit].
    simpl. destruct (hvac_mode e) as [m|].
    + destruct (hass_call_ok e (set_hvac_mode id m));
        (eapply same_state_trans; [apply same_state_emit|apply same_state_emit]).
    + apply same_state_emit.
  - destruct (hvac_mode e) as [m|]; [|apply same_state_refl].
    destruct (hass_call_ok e (set_hvac_mode id m)); apply same_state_emit.
Qed.

Lemma apply_trace_grows e :
  exists new, trace (_async_apply_to_climate_entity e) = (trace e ++ new)%list.
Proof.
  unfold _async_apply_to_climate_entity.
  destruct (climate_entity e) as [id|]; [|exists []; symmetry; apply app_nil_r].
  destruct (negb (str_truthy id)); [exists []; symmetry; apply app_nil_r|].
  destruct (target_temperature e) as [t|].
  - destruct (hass_call_ok e (set_temperature id t)); [|simpl; eauto].
    simpl. destruct (hvac_mode e) as [m|].
    + destruct (hass_call_ok e (set_hvac_mode id m)); simpl;
        rewrite <- app_assoc; eauto.
    + simpl. eauto.
  - destruct (hvac_mode e) as [m|]; [|exists []; symmetry; apply app_nil_r].
    destruct (hass_call_ok e (set_hvac_mode id m)); simpl; eauto.
Qed.

Lemma calls_app tr tr' : calls (tr ++ tr') = (calls tr ++ calls tr')%list.
Proof. unfold calls. apply omap_app. Qed.

Lemma calls_emit_log l msg e : calls (trace (emit (Log l msg) e)) = calls (trace e).
Proof. simpl. rewrite calls_app. simpl. apply app_nil_r. Qed.

(** What a preset change that is accepted writes. *)
Lemma async_set_preset_mode_accepted now mode e :
  is_preset_mode mode = true ->
  let e' := async_set_preset_mode now mode e in
  preset_mode e' = Some mode /\
  last_preset_change e' = Some now /\
  target_temperature e' =
    default (Some (Int 21)) (preset_entry (presets e) (Some mode) !! "temperature") /\
  hvac_mode e' = hvac_mode e /\
  schedules e' = schedules e /\ presets e' = presets e.
Proof.
  intros H. unfold async_set_preset_mode. rewrite H. simpl.
  match goal with |- context [_async_apply_to_climate_entity ?x] =>
    pose proof (apply_same_state x) as F end.
  unfold same_state in F. simpl in F.
  destruct F as (_ & _ & Fs & Fp & Ft & Fh & Fm & Fl).
  rewrite Fm, Fl, Ft, Fh, Fs, Fp. tauto.
Qed.

(** ** Preset changes *)

(** C6. A preset name outside the supported set is rejected without
    raising: the handler returns the entity with one warning appended to
    its trace; preset, target temperature, HVAC mode and the record of the
    last preset change are unchanged and no service call is made. *)
Theorem async_set_preset_mode_invalid (now : datetime) (mode : string) (e : entity) :
  is_preset_mode mode = false ->
  let e' := async_set_preset_mode now mode e in
  trace e' = (trace e ++ [Log WARNING "Invalid preset mode: %s"])%list /\
  preset_mode e' = preset_mode e /\
  target_temperature e' = target_temperature e /\
  hvac_mode e' = hvac_mode e /\
  last_preset_change e' = last_preset_change e /\
  calls (trace e') = calls (trace e).
Proof.
  intros H. unfold async_set_preset_mode. rewrite H. simpl.
  repeat split. rewrite calls_app. simpl. apply app_nil_r.
Qed.

Lemma async_set_preset_mode_invalid_witness :
  is_preset_mode "bogus" = false /\
  let e' := async_set_preset_mode (at_day 1 10 0) "bogus" scenario_entity in
  trace e' = (trace scenario_entity ++ [Log WARNING "Invalid preset mode: %s"])%list /\
  preset_mode e' = preset_mode scenario_entity /\
  target_temperature e' = target_temperature scenario_entity /\
  hvac_mode e' = hvac_mode scenario_entity /\
  last_preset_change e' = last_preset_change scenario_entity /\
  calls (trace e') = calls (trace scenario_entity).
Proof.
  split; [reflexivity|].
  apply (async_set_preset_mode_invalid (at_day 1 10 0) "bogus" scenario_entity).
  reflexivity.
Defined.

(** C2, as the specification states it, fails: for the supported preset
    ["away"] and an empty catalog the target temperature does change. *)
Lemma preset_without_temperature_changes_target :
  is_preset_mode "away" = true /\
  presets bare_entity !! "away" = None /\
  target_temperature bare_entity = None /\
  target_temperature (async_set_preset_mode (at_day 1 10 0) "away" bare_entity)
    = Some (Int 21).
Proof. repeat split; reflexivity. Qed.

(** C2, amended. For a supported preset whose catalog entry has no
    temperature, or that is absent from the catalog, the target
    temperature is set to the default 21. *)
Theorem async_set_preset_mode_default_temperature
    (now : datetime) (mode : string) (e : entity) :
  is_preset_mode mode = true ->
  (presets e !! mode = None \/
   exists entry, presets e !! mode = Some entry /\ entry !! "temperature" = None) ->
  target_temperature (async_set_preset_mode now mode e) = Some (Int 21).
Proof.
  intros H Habs.
  destruct (async_set_preset_mode_accepted now mode e H) as (_ & _ & -> & _).
  unfold preset_entry.
  destruct Habs as [-> | (entry & -> & Ht)]; simpl.
  - reflexivity.
  - rewrite Ht. reflexivity.
Qed.

Lemma async_set_preset_mode_default_temperature_witness :
  is_preset_mode "vacation" = true /\
  (presets scenario_entity !! "vacation" = None \/
   exists entry, presets scenario_entity !! "vacation" = Some entry /\
                 entry !! "temperature" = None) /\
  target_temperature
    (async_set_preset_mode (at_day 1 10 0) "vacation" scenario_entity)
  = Some (Int 21).
Proof.
  split; [reflexivity|]. split; [left; reflexivity|].
  apply (async_set_preset_mode_default_temperature
           (at_day 1 10 0) "vacation" scenario_entity);
    [reflexivity | left; reflexivity].
Defined.

(** C10. [async_set_temperature] with a temperature that is false as a
    truth value (absent, [None], the integer 0, a float zero) returns the
    entity as it was: the target temperature is unchanged and nothing is
    appended to the trace, so no service call is made. *)
Theorem async_set_temperature_falsy
    (kwargs : gmap string (option number)) (e : entity) :
  (truthy (default None (kwargs !! ATTR_TEMPERATURE)) = false ->
   async_set_temperature kwargs e = e) /\
  async_set_temperature (<[ATTR_TEMPERATURE := Some (Int 0)]> kwargs) e = e /\
  (forall sign,
     async_set_temperature
       (<[ATTR_TEMPERATURE := Some (Float (S754_zero sign))]> kwargs) e = e).
Proof.
  unfold async_set_temperature. split; [|split].
  - intros ->. reflexivity.
  - rewrite lookup_insert_eq. reflexivity.
  - intros sign. rewrite lookup_insert_eq. reflexivity.
Qed.

Lemma async_set_temperature_falsy_witness :
  truthy (default None
            (({[ ATTR_TEMPERATURE := Some (Int 0) ]} : gmap string (option number))
               !! ATTR_TEMPERATURE)) = false /\
  async_set_temperature {[ ATTR_TEMPERATURE := Some (Int 0) ]} scenario_entity
  = scenario_entity.
Proof.
  split; [reflexivity|].
  apply (async_set_temperature_falsy
           {[ ATTR_TEMPERATURE := Some (Int 0) ]} scenario_entity).
  reflexivity.
Defined.

(** ** The schedule check *)

(** The two early returns of [_async_check_schedule] agree with running
    the loop on an empty schedule. *)
Lemma check_schedule_unfold now e :
  _async_check_schedule now e =
  do active_preset <-
    find_active (time_of now) (sorted time_key (day_schedule now e)) None;
  match active_preset with
  | Some p =>
      if str_truthy p && preset_differs p (preset_mode e)
      then
        if override_active now (last_preset_change e)
        then Ok (emit (Log DEBUG "Manual override active, skipping schedule change") e)
        else Ok (async_set_preset_mode now p
                   (emit (Log INFO "Schedule changing preset from %s to %s") e))
      else Ok e
  | None => Ok e
  end.
Proof.
  unfold _async_check_schedule.
  destruct (bool_decide (schedules e = ∅)) eqn:Eb.
  - apply bool_decide_eq_true in Eb. unfold day_schedule. rewrite Eb.
    rewrite lookup_empty. reflexivity.
  - destruct (day_schedule now e); reflexivity.
Qed.

Lemma day_schedule_ext now e e' :
  schedules e' = schedules e -> day_schedule now e' = day_schedule now e.
Proof. unfold day_schedule. intros ->. reflexivity. Qed.

Lemma preset_differs_same p : preset_differs p (Some p) = false.
Proof. simpl. rewrite String.eqb_refl. reflexivity. Qed.

Lemma preset_differs_true p c :
  preset_differs p c = true <-> c <> Some p.
Proof.
  destruct c as [c|]; simpl.
  - rewrite negb_true_iff, String.eqb_neq. split; congruence.
  - split; [discriminate|reflexivity].
Qed.

(** A check that runs while the override window is open changes nothing
    but the trace, to which it adds one debug record. *)
Lemma check_schedule_suppressed now e :
  override_active now (last_preset_change e) = true ->
  forall e', _async_check_schedule now e = Ok e' ->
  same_state e' e /\ calls (trace e') = calls (trace e).
Proof.
  intros Ho e'. rewrite check_schedule_unfold.
  destruct (find_active _ _ _) as [[p|]|ex]; simpl; try discriminate.
  - destruct (str_truthy p && preset_differs p (preset_mode e)).
    + rewrite Ho. intros [= <-]. split; [apply same_state_emit|].
      apply calls_emit_log.
    + intros [= <-]. split; [apply same_state_refl|reflexivity].
  - intros [= <-]. split; [apply same_state_refl|reflexivity].
Qed.

(** A check that finds a supported preset due, different from the active
    one, outside the override window, applies it. *)
Lemma check_schedule_applies now e p :
  find_active (time_of now) (sorted time_key (day_schedule now e)) None
    = Ok (Some p) ->
  str_truthy p = true -> preset_mode e <> Some p ->
  override_active now (last_preset_change e) = false ->
  is_preset_mode p = true ->
  exists e', _async_check_schedule now e = Ok e' /\
    preset_mode e' = Some p /\
    target_temperature e' =
      default (Some (Int 21)) (preset_entry (presets e) (Some p) !! "temperature") /\
    last_preset_change e' = Some now.
Proof.
  intros Hf Ht Hd Ho Hp. rewrite check_schedule_unfold, Hf. simpl.
  rewrite Ht. apply preset_differs_true in Hd. rewrite Hd, Ho. simpl.
  eexists. split; [reflexivity|].
  match goal with |- context [async_set_preset_mode now p ?x] =>
    destruct (async_set_preset_mode_accepted now p x Hp) as (-> & -> & -> & _) end.
  repeat split.
Qed.

(** C7. When a schedule check returns, a second check at the same instant
    returns as well and leaves preset, target temperature, record of the
    last preset change and HVAC mode as the first check left them, and
    makes no service call. *)
Theorem check_schedule_idempotent (now : datetime) (e e1 : entity) :
  _async_check_schedule now e = Ok e1 ->
  exists e2,
    _async_check_schedule now e1 = Ok e2 /\
    preset_mode e2 = preset_mode e1 /\
    target_temperature e2 = target_temperature e1 /\
    last_preset_change e2 = last_preset_change e1 /\
    hvac_mode e2 = hvac_mode e1 /\
    calls (trace e2) = calls (trace e1).
Proof.
  rewrite !check_schedule_unfold.
  destruct (find_active (time_of now) (sorted time_key (day_schedule now e)) None)
    as [[p|]|ex] eqn:Ef; simpl; try discriminate.
  - destruct (str_truthy p && preset_differs p (preset_mode e)) eqn:Ec.
    + destruct (override_active now (last_preset_change e)) eqn:Eo.
      * intros [= <-].
        rewrite (day_schedule_ext now e (emit _ e)) by reflexivity.
        rewrite Ef. simpl. rewrite Ec, Eo.
        eexists. split; [reflexivity|]. simpl. repeat split.
        rewrite calls_app. simpl. apply app_nil_r.
      * destruct (is_preset_mode p) eqn:Ep.
        -- intros [= <-].
           match goal with |- context [async_set_preset_mode now p ?x] =>
             destruct (async_set_preset_mode_accepted now p x Ep)
               as (Hm & _ & _ & _ & Hs & _); set (e1 := async_set_preset_mode now p x) in * end.
           rewrite (day_schedule_ext now e e1) by exact Hs.
           rewrite Ef. simpl. rewrite Hm, preset_differs_same, andb_false_r.
           exists e1. repeat split. exact Hm.
        -- unfold async_set_preset_mode at 1. rewrite Ep. simpl.
           intros [= <-].
           rewrite (day_schedule_ext now e (emit _ (emit _ e))) by reflexivity.
           rewrite Ef. simpl. rewrite Ec, Eo.
           unfold async_set_preset_mode. rewrite Ep. simpl.
           eexists. split; [reflexivity|]. simpl. repeat split.
           rewrite !calls_app. simpl. rewrite !app_nil_r. reflexivity.
    + intros [= <-]. rewrite Ef. simpl. rewrite Ec.
      exists e. repeat split.
  - intros [= <-]. rewrite Ef. simpl. exists e. repeat split.
Qed.

Lemma check_schedule_idempotent_witness :
  exists e1,
    _async_check_schedule (at_day 1 9 30) scenario_entity = Ok e1 /\
    exists e2,
      _async_check_schedule (at_day 1 9 30) e1 = Ok e2 /\
      preset_mode e2 = preset_mode e1 /\
      target_temperature e2 = target_temperature e1 /\
      last_preset_change e2 = last_preset_change e1 /\
      hvac_mode e2 = hvac_mode e1 /\
      calls (trace e2) = calls (trace e1).
Proof.
  eexists. split; [vm_compute; reflexivity|].
  eapply (check_schedule_idempotent (at_day 1 9 30) scenario_entity).
  vm_compute. reflexivity.
Defined.

(** A check that changes the preset records the instant of the change in
    [_last_preset_change], as a manual change does. *)
Lemma check_schedule_change_stamps now e e1 :
  _async_check_schedule now e = Ok e1 ->
  preset_mode e1 <> preset_mode e ->
  last_preset_change e1 = Some now.
Proof.
  rewrite check_schedule_unfold.
  destruct (find_active _ _ _) as [[p|]|ex]; simpl; try discriminate.
  - destruct (str_truthy p && preset_differs p (preset_mode e)).
    + destruct (override_active now (last_preset_change e)).
      * intros [= <-]. simpl. congruence.
      * destruct (is_preset_mode p) eqn:Ep.
        -- intros [= <-] _.
           match goal with |- context [async_set_preset_mode now p ?x] =>
             destruct (async_set_preset_mode_accepted now p x Ep)
               as (_ & Hl & _) end.
           exact Hl.
        -- unfold async_set_preset_mode. rewrite Ep. simpl.
           intros [= <-]. simpl. congruence.
    + intros [= <-]. congruence.
  - intros [= <-]. congruence.
Qed.

(** C1 does not hold of the code. On a Tuesday at 09:30 the schedule of
    the worked scenario switches the entity, on which no manual change
    was ever made, from ["home"] to ["away"], and the check leaves the
    instant of that switch in [_last_preset_change]. *)
Theorem schedule_change_sets_last_preset_change :
  exists e1,
    _async_check_schedule (at_day 1 9 30) scenario_entity = Ok e1 /\
    preset_mode scenario_entity = Some "home" /\
    preset_mode e1 = Some "away" /\
    last_preset_change scenario_entity = None /\
    last_preset_change e1 = Some (at_day 1 9 30).
Proof. eexists. split; [vm_compute; reflexivity|]. repeat split. Qed.

(** What follows from it: a schedule change due within 30 minutes of
    another schedule change is skipped as a manual override, although no
    manual change took place. The check of 08:00 applies ["away"]; the
    check of 08:10 finds ["sleep"] due and leaves ["away"] active. *)
Lemma schedule_change_opens_override_window :
  exists e1 e2,
    _async_check_schedule (at_day 1 8 0) dense_entity = Ok e1 /\
    preset_mode e1 = Some "away" /\
    find_active (time_of (at_day 1 8 10))
      (sorted time_key (day_schedule (at_day 1 8 10) e1)) None
      = Ok (Some "sleep") /\
    _async_check_schedule (at_day 1 8 10) e1 = Ok e2 /\
    preset_mode e2 = Some "away" /\
    last (trace e2)
      = Some (Log DEBUG "Manual override active, skipping schedule change").
Proof.
  eexists. eexists. split; [vm_compute; reflexivity|].
  split; [reflexivity|]. split; [vm_compute; reflexivity|].
  split; [vm_compute; reflexivity|]. split; reflexivity.
Qed.

(** ** The override window *)

Lemma override_active_iff now t :
  override_active now (Some t) = true <-> now - t < 30 * usec_per_minute.
Proof. simpl. apply Z.ltb_lt. Qed.

(** C3, as the specification states it, fails in its second half. A
    manual change to ["vacation"] is made on a Tuesday at 10:00; at 10:31,
    past the window, the schedule has ["eco"] due, which differs from the
    active preset, and the check leaves ["vacation"] active: ["eco"] is not
    a supported preset and the preset change rejects it. *)
Lemma due_preset_not_applied_after_window :
  let T := at_day 1 10 0 in
  let T' := at_day 1 10 31 in
  let e1 := async_set_preset_mode T "vacation" eco_entity in
  preset_mode e1 = Some "vacation" /\
  T + 30 * usec_per_minute <= T' /\
  find_active (time_of T') (sorted time_key (day_schedule T' e1)) None
    = Ok (Some "eco") /\
  exists e2, _async_check_schedule T' e1 = Ok e2 /\
             preset_mode e2 = Some "vacation".
Proof.
  cbv zeta. split; [reflexivity|]. split; [vm_compute; discriminate|].
  split; [vm_compute; reflexivity|].
  eexists. split; [vm_compute; reflexivity|]. reflexivity.
Qed.

(** Checks made while the window of a change at [T] is open leave the
    state as it is. *)
Lemma run_checks_in_window T times e e' :
  last_preset_change e = Some T ->
  Forall (fun t => T <= t < T + 30 * usec_per_minute) times ->
  run_checks times e = Ok e' ->
  same_state e' e.
Proof.
  intros Hl Hw. revert e Hl. induction Hw as [|t times Ht Hw IH]; intros e Hl; simpl.
  - intros [= <-]. apply same_state_refl.
  - destruct (_async_check_schedule t e) as [e1|ex] eqn:E; simpl; [|discriminate].
    intros Hr.
    assert (override_active t (last_preset_change e) = true) as Ho.
    { rewrite Hl. apply override_active_iff. lia. }
    destruct (check_schedule_suppressed t e Ho e1 E) as [Hs _].
    eapply same_state_trans; [|exact Hs].
    apply IH; [|exact Hr].
    unfold same_state in Hs. destruct Hs as (_ & _ & _ & _ & _ & _ & _ & ->).
    exact Hl.
Qed.

(** C3, amended. A manual change to a supported preset is made at [T]
    and is followed by any number of schedule checks inside the window
    [T <= t < T + 30 min]. Then a check at [T'] with
    [T <= T' < T + 30 min] returns whenever the loop over the schedule
    does and leaves the active preset, like the rest of the state,
    unchanged; and a check at [T' >= T + 30 min] that finds due a preset
    that differs from the active one and is a supported preset applies
    it. *)
Theorem override_window
    (T T' : datetime) (mode : string) (e : entity)
    (times : list datetime) (e1 : entity) :
  is_preset_mode mode = true ->
  Forall (fun t => T <= t < T + 30 * usec_per_minute) times ->
  run_checks times (async_set_preset_mode T mode e) = Ok e1 ->
  (T <= T' < T + 30 * usec_per_minute ->
   forall r,
     find_active (time_of T') (sorted time_key (day_schedule T' e1)) None = Ok r ->
     exists e2, _async_check_schedule T' e1 = Ok e2 /\
       preset_mode e2 = Some mode /\ same_state e2 e1) /\
  (T + 30 * usec_per_minute <= T' ->
   forall p,
     find_active (time_of T') (sorted time_key (day_schedule T' e1)) None
       = Ok (Some p) ->
     str_truthy p = true -> p <> mode -> is_preset_mode p = true ->
     exists e2, _async_check_schedule T' e1 = Ok e2 /\
       preset_mode e2 = Some p).
Proof.
  intros Hm Hw Hrun.
  destruct (async_set_preset_mode_accepted T mode e Hm) as (Hp0 & Hl0 & _).
  pose proof (run_checks_in_window T times _ e1 Hl0 Hw Hrun) as Hs1.
  assert (preset_mode e1 = Some mode) as Hp.
  { unfold same_state in Hs1. destruct Hs1 as (_ & _ & _ & _ & _ & _ & -> & _).
    exact Hp0. }
  assert (last_preset_change e1 = Some T) as Hl.
  { unfold same_state in Hs1. destruct Hs1 as (_ & _ & _ & _ & _ & _ & _ & ->).
    exact Hl0. }
  clear Hs1 Hp0 Hl0 Hrun. split.
  - intros HT r Hr.
    assert (override_active T' (last_preset_change e1) = true) as Ho.
    { rewrite Hl. apply override_active_iff. lia. }
    assert (exists e2, _async_check_schedule T' e1 = Ok e2) as [e2 He2].
    { rewrite check_schedule_unfold, Hr. simpl.
      destruct r as [p|]; [|eauto].
      destruct (str_truthy p && preset_differs p (preset_mode e1)); [|eauto].
      rewrite Ho. eauto. }
    exists e2. split; [exact He2|].
    destruct (check_schedule_suppressed T' e1 Ho e2 He2) as [Hs _].
    split; [|exact Hs].
    unfold same_state in Hs. destruct Hs as (_ & _ & _ & _ & _ & _ & -> & _).
    exact Hp.
  - intros HT p Hf Ht Hne Hsup.
    destruct (check_schedule_applies T' e1 p Hf Ht) as (e2 & He2 & Hp2 & _).
    + rewrite Hp. congruence.
    + rewrite Hl. simpl. apply Z.ltb_ge. lia.
    + exact Hsup.
    + exists e2. split; assumption.
Qed.

Lemma override_window_witness :
  is_preset_mode "vacation" = true /\
  Forall (fun t => at_day 1 10 0 <= t < at_day 1 10 0 + 30 * usec_per_minute)
    [at_day 1 10 5; at_day 1 10 10] /\
  exists e1,
    run_checks [at_day 1 10 5; at_day 1 10 10]
      (async_set_preset_mode (at_day 1 10 0) "vacation" scenario_entity) = Ok e1 /\
    (at_day 1 10 0 <= at_day 1 10 20 < at_day 1 10 0 + 30 * usec_per_minute ->
     forall r,
       find_active (time_of (at_day 1 10 20))
         (sorted time_key (day_schedule (at_day 1 10 20) e1)) None = Ok r ->
       exists e2, _async_check_schedule (at_day 1 10 20) e1 = Ok e2 /\
         preset_mode e2 = Some "vacation" /\ same_state e2 e1) /\
    (at_day 1 10 0 + 30 * usec_per_minute <= at_day 1 10 20 ->
     forall p,
       find_active (time_of (at_day 1 10 20))
         (sorted time_key (day_schedule (at_day 1 10 20) e1)) None
         = Ok (Some p) ->
       str_truthy p = true -> p <> "vacation" -> is_preset_mode p = true ->
       exists e2, _async_check_schedule (at_day 1 10 20) e1 = Ok e2 /\
         preset_mode e2 = Some p).
Proof.
  split; [reflexivity|].
  split; [repeat (constructor; [vm_compute; split; congruence|]); constructor|].
  eexists. split; [vm_compute; reflexivity|].
  eapply (override_window (at_day 1 10 0) (at_day 1 10 20) "vacation"
            scenario_entity [at_day 1 10 5; at_day 1 10 10]).
  - reflexivity.
  - repeat (constructor; [vm_compute; split; congruence|]); constructor.
  - vm_compute. reflexivity.
Defined.

(** The worked scenario of the override window: a manual change to
    ["vacation"] at 10:00, a check at 10:20 that finds ["away"] due and
    skips it, a check at 10:31 that applies ["away"] with its 18 degrees. *)
Lemma scenario_override :
  let e1 := async_set_preset_mode (at_day 1 10 0) "vacation" scenario_entity in
  exists e2 e3,
    _async_check_schedule (at_day 1 10 20) e1 = Ok e2 /\
    preset_mode e2 = Some "vacation" /\
    _async_check_schedule (at_day 1 10 31) e2 = Ok e3 /\
    preset_mode e3 = Some "away" /\
    target_temperature e3 = Some (Int 18).
Proof.
  cbv zeta. eexists. eexists. split; [vm_compute; reflexivity|].
  split; [reflexivity|]. split; [vm_compute; reflexivity|].
  split; reflexivity.
Qed.

(** ** The next temperature *)

(** C9. [_get_next_temperature] returns [None] when [_get_next_schedule]
    returns [None], and when the slot the loop stops at names a preset
    that is absent from the preset catalog. *)
Theorem get_next_temperature_none (now : datetime) (e : entity) :
  (_get_next_schedule now e = Ok None ->
   _get_next_temperature now e = Ok None) /\
  (forall S p,
     find_next_slot (time_of now) (sorted time_key (day_schedule now e))
       = Ok (Some S) ->
     slot_preset S = Some p -> presets e !! p = None ->
     _get_next_temperature now e = Ok None).
Proof.
  unfold _get_next_schedule, _get_next_temperature.
  rewrite find_next_time_slot, find_next_temperature_slot.
  split.
  - destruct (find_next_slot _ _) as [[S|]|ex] eqn:E; simpl;
      [|reflexivity|discriminate].
    intros [= Hs]. exfalso.
    apply find_next_slot_Some in E as (_ & t & Ht & Hlt).
    unfold time_key in Ht. rewrite Hs in Ht.
    change (default "00:00" None) with "00:00" in Ht.
    change (strptime "00:00") with (Some 0) in Ht.
    injection Ht as <-. pose proof (time_of_nonneg now) as H0. lia.
  - intros S p -> Hp Habs. simpl. rewrite Hp. simpl. rewrite Habs.
    reflexivity.
Qed.

Lemma get_next_temperature_none_witness :
  _get_next_schedule (at_day 1 23 0) scenario_entity = Ok None /\
  _get_next_temperature (at_day 1 23 0) scenario_entity = Ok None.
Proof.
  split; [vm_compute; reflexivity|].
  apply (get_next_temperature_none (at_day 1 23 0) scenario_entity).
  vm_compute. reflexivity.
Defined.

(** ** Restoring the stored state *)

(** C8, as the specification states it, fails. The stored state holds no
    temperature ([None], as the entity writes it before a first target is
    set) and the supported preset ["away"]; restoration returns the entity
    untouched, so the valid preset is not restored and ["home"] stays. *)
Lemma invalid_temperature_blocks_preset_restore :
  state_usable (state snapshot_without_temperature) = true /\
  attr_preset_mode snapshot_without_temperature = Some (Some "away") /\
  is_preset_mode "away" = true /\
  restore_state (Some snapshot_without_temperature) bare_entity = Ok bare_entity /\
  preset_mode bare_entity = Some "home".
Proof. repeat split; reflexivity. Qed.

(** C8, amended. A stored state that is usable is restored as a whole.
    When [float] accepts its temperature, 21 standing in for a missing
    one, the target temperature becomes that float and the preset becomes
    the stored one, ["home"] standing in for a missing one. When the
    stored temperature is [None] neither attribute is restored and
    restoration returns the entity as it was. Restoration raises only
    when the stored temperature is an integer too large for a float. *)
Theorem restore_state_snapshot (ls : State) (e : entity) :
  state_usable (state ls) = true ->
  (forall f,
     py_float (default (Some (Int 21)) (attr_temperature ls)) = Ok f ->
     exists e',
       restore_state (Some ls) e = Ok e' /\
       target_temperature e' = Some (Float f) /\
       preset_mode e' = default (Some PRESET_HOME) (attr_preset_mode ls) /\
       hvac_mode e' = hvac_mode e /\
       last_preset_change e' = last_preset_change e) /\
  (attr_temperature ls = None ->
   py_float (default (Some (Int 21)) (attr_temperature ls))
     = Ok (binary_normalize 53 1024 21 0 false)) /\
  (attr_temperature ls = Some None -> restore_state (Some ls) e = Ok e) /\
  (forall ex,
     restore_state (Some ls) e = Raise ex ->
     ex = OverflowError /\ exists z, attr_temperature ls = Some (Some (Int z))).
Proof.
  intros Hu. unfold restore_state. rewrite Hu.
  split; [|split; [|split]].
  - intros f ->. eexists. split; [reflexivity|]. simpl. repeat split.
  - intros ->. reflexivity.
  - intros ->. reflexivity.
  - intros ex. destruct (attr_temperature ls) as [[[z|f]|]|]; simpl.
    + destruct (binary_normalize 53 1024 z 0 false); try discriminate.
      intros [= <-]. eauto.
    + discriminate.
    + discriminate.
    + discriminate.
Qed.

Lemma restore_state_snapshot_witness :
  state_usable (state snapshot_complete) = true /\
  exists e',
    restore_state (Some snapshot_complete) bare_entity = Ok e' /\
    target_temperature e'
      = Some (Float (binary_normalize 53 1024 18 0 false)) /\
    preset_mode e' = Some "away" /\
    hvac_mode e' = hvac_mode bare_entity /\
    last_preset_change e' = last_preset_change bare_entity.
Proof.
  split; [reflexivity|].
  apply (restore_state_snapshot snapshot_complete bare_entity); reflexivity.
Defined.

(** Without a stored state, or with one that is unavailable or unknown,
    nothing is restored. *)
Lemma restore_state_nothing (ls : State) (e : entity) :
  restore_state None e = Ok e /\
  (state_usable (state ls) = false -> restore_state (Some ls) e = Ok e).
Proof.
  split; [reflexivity|]. unfold restore_state. intros ->. reflexivity.
Qed.

(** The stored preset is taken as it is, supported or not. *)
Lemma restore_state_keeps_unsupported_preset :
  exists e',
    restore_state
      (Some {| state := Some "heat_cool";
               attr_temperature := Some (Some (Int 18));
               attr_preset_mode := Some (Some "bogus") |}) bare_entity = Ok e' /\
    preset_mode e' = Some "bogus" /\ is_preset_mode "bogus" = false.
Proof. eexists. split; [reflexivity|]. split; reflexivity. Qed.

(** ** The worked scenarios of the resolver *)

(** Tuesday 07:30: ["home"] is active, the next change is at 08:00 and
    brings 18 degrees. *)
Lemma scenario_morning :
  find_active (time_of (at_day 1 7 30))
    (sorted time_key (day_schedule (at_day 1 7 30) scenario_entity)) None
    = Ok (Some "home") /\
  _get_next_schedule (at_day 1 7 30) scenario_entity = Ok (Some "08:00") /\
  _get_next_temperature (at_day 1 7 30) scenario_entity = Ok (Some (Int 18)).
Proof. repeat split; vm_compute; reflexivity. Qed.

(** Tuesday 23:00: ["sleep"] is active and no change is left in the day. *)
Lemma scenario_night :
  find_active (time_of (at_day 1 23 0))
    (sorted time_key (day_schedule (at_day 1 23 0) scenario_entity)) None
    = Ok (Some "sleep") /\
  _get_next_schedule (at_day 1 23 0) scenario_entity = Ok None.
Proof. repeat split; vm_compute; reflexivity. Qed.

(** The slots are sorted as strings and compared as times. The two agree
    on times written HH:MM; for an hour written with one digit, which
    [strptime] reads as well, they do not: at 07:00 the slot of ["6:00"]
    is due and the loop, stopped by ["10:00"] sorted first, finds none. *)
Lemma one_digit_hour_sorts_as_string :
  let l := [ Slot (Some "6:00") (Some "home"); Slot (Some "10:00") (Some "away") ] in
  sorted time_key l
    = [ Slot (Some "10:00") (Some "away"); Slot (Some "6:00") (Some "home") ] /\
  find_active (mk_time 7 0) (sorted time_key l) None = Ok None.
Proof. split; vm_compute; reflexivity. Qed.

(** ** Dispatch to the climate device *)

Lemma apply_trace_accepted (e : entity) (id : string) :
  climate_entity e = Some id -> str_truthy id = true ->
  (forall c, hass_call_ok e c = true) ->
  trace (_async_apply_to_climate_entity e) =
    (trace e
     ++ match target_temperature e with
        | Some t => [Call (set_temperature id t)]
        | None => []
        end
     ++ match hvac_mode e with
        | Some m => [Call (set_hvac_mode id m)]
        | None => []
        end)%list.
Proof.
  intros Hid Ht Hok. unfold _async_apply_to_climate_entity.
  rewrite Hid, Ht. simpl.
  destruct (target_temperature e) as [t|]; simpl.
  - rewrite Hok. simpl. destruct (hvac_mode e) as [m|]; simpl.
    + rewrite Hok. simpl. rewrite <- app_assoc. reflexivity.
    + reflexivity.
  - destruct (hvac_mode e) as [m|]; simpl.
    + rewrite Hok. reflexivity.
    + rewrite app_nil_r. reflexivity.
Qed.

(** When the platform accepts every call, applying the settings of an
    entity that names a climate device sends the target temperature, if
    there is one, and then the HVAC mode, if there is one, and nothing
    else is added to the trace. *)
Theorem apply_sends_temperature_then_mode (e : entity) (id : string) :
  climate_entity e = Some id -> str_truthy id = true ->
  (forall c, hass_call_ok e c = true) ->
  trace (_async_apply_to_climate_entity e) =
    (trace e
     ++ match target_temperature e with
        | Some t => [Call (set_temperature id t)]
        | None => []
        end
     ++ match hvac_mode e with
        | Some m => [Call (set_hvac_mode id m)]
        | None => []
        end)%list.
Proof. apply apply_trace_accepted. Qed.

Lemma apply_sends_temperature_then_mode_witness :
  climate_entity scenario_entity = Some "climate.living_room" /\
  str_truthy "climate.living_room" = true /\
  (forall c, hass_call_ok scenario_entity c = true) /\
  trace (_async_apply_to_climate_entity scenario_entity) =
    (trace scenario_entity
     ++ match target_temperature scenario_entity with
        | Some t => [Call (set_temperature "climate.living_room" t)]
        | None => []
        end
     ++ match hvac_mode scenario_entity with
        | Some m => [Call (set_hvac_mode "climate.living_room" m)]
        | None => []
        end)%list.
Proof.
  split; [reflexivity|]. split; [reflexivity|]. split; [reflexivity|].
  apply (apply_sends_temperature_then_mode scenario_entity "climate.living_room");
    reflexivity.
Defined.

(** A temperature call that raises ends the dispatch: the HVAC mode is
    not sent, whatever the platform would have answered to it, one error
    is logged and no call is recorded. *)
Theorem apply_failed_temperature_skips_mode
    (e : entity) (id : string) (t : number) :
  climate_entity e = Some id -> str_truthy id = true ->
  target_temperature e = Some t ->
  hass_call_ok e (set_temperature id t) = false ->
  trace (_async_apply_to_climate_entity e) =
    (trace e ++ [Log ERROR "Failed to apply settings to %s: %s"])%list /\
  calls (trace (_async_apply_to_climate_entity e)) = calls (trace e).
Proof.
  intros Hid Ht Htemp Hfail. unfold _async_apply_to_climate_entity.
  rewrite Hid, Ht, Htemp, Hfail. simpl. split; [reflexivity|].
  rewrite calls_app. simpl. apply app_nil_r.
Qed.

Lemma apply_failed_temperature_skips_mode_witness :
  let e := with_target_temperature (Some (Int 20))
             (init (fun _ => false) scenario_entry) in
  climate_entity e = Some "climate.living_room" /\
  hvac_mode e = Some HEAT_COOL /\
  trace (_async_apply_to_climate_entity e) =
    (trace e ++ [Log ERROR "Failed to apply settings to %s: %s"])%list /\
  calls (trace (_async_apply_to_climate_entity e)) = calls (trace e).
Proof.
  cbv zeta. split; [reflexivity|]. split; [reflexivity|].
  apply (apply_failed_temperature_skips_mode
           (with_target_temperature (Some (Int 20))
              (init (fun _ => false) scenario_entry))
           "climate.living_room" (Int 20)); reflexivity.
Defined.

(** ** Temperature and mode set by hand *)

Lemma async_set_temperature_frame kwargs e :
  let e' := async_set_temperature kwargs e in
  schedules e' = schedules e /\ presets e' = presets e /\
  preset_mode e' = preset_mode e /\
  last_preset_change e' = last_preset_change e /\
  hvac_mode e' = hvac_mode e.
Proof.
  unfold async_set_temperature. simpl.
  destruct (truthy (default None (kwargs !! ATTR_TEMPERATURE))); [|tauto].
  match goal with |- context [_async_apply_to_climate_entity ?x] =>
    pose proof (apply_same_state x) as F end.
  unfold same_state in F. simpl in F. simpl. tauto.
Qed.

Lemma async_set_hvac_mode_frame mode e :
  let e' := async_set_hvac_mode mode e in
  schedules e' = schedules e /\ presets e' = presets e /\
  preset_mode e' = preset_mode e /\
  last_preset_change e' = last_preset_change e /\
  target_temperature e' = target_temperature e /\
  hvac_mode e' = mode.
Proof.
  unfold async_set_hvac_mode. simpl.
  match goal with |- context [_async_apply_to_climate_entity ?x] =>
    pose proof (apply_same_state x) as F end.
  unfold same_state in F. simpl in F. simpl. tauto.
Qed.

(** A temperature set by hand opens no override window. When a
    supported preset that differs from the active one is due and no
    window is open, the schedule check that follows
    [async_set_temperature] applies the preset and replaces the
    temperature just set by that of the preset. *)
Theorem manual_temperature_not_protected
    (now : datetime) (kwargs : gmap string (option number))
    (e : entity) (p : string) :
  find_active (time_of now) (sorted time_key (day_schedule now e)) None
    = Ok (Some p) ->
  str_truthy p = true -> preset_mode e <> Some p ->
  is_preset_mode p = true ->
  override_active now (last_preset_change e) = false ->
  exists e',
    _async_check_schedule now (async_set_temperature kwargs e) = Ok e' /\
    preset_mode e' = Some p /\
    target_temperature e' =
      default (Some (Int 21))
        (preset_entry (presets e) (Some p) !! "temperature").
Proof.
  intros Hf Ht Hd Hp Ho.
  destruct (async_set_temperature_frame kwargs e) as (Hs & Hc & Hm & Hl & _).
  set (e1 := async_set_temperature kwargs e) in *.
  destruct (check_schedule_applies now e1 p) as (e' & He' & Hp' & Ht' & _).
  - rewrite (day_schedule_ext now e e1 Hs). exact Hf.
  - exact Ht.
  - rewrite Hm. exact Hd.
  - rewrite Hl. exact Ho.
  - exact Hp.
  - exists e'. rewrite Hc in Ht'. auto.
Qed.

Lemma manual_temperature_not_protected_witness :
  exists e',
    _async_check_schedule (at_day 1 9 30)
      (async_set_temperature {[ ATTR_TEMPERATURE := Some (Int 25) ]}
         scenario_entity) = Ok e' /\
    preset_mode e' = Some "away" /\
    target_temperature e' =
      default (Some (Int 21))
        (preset_entry (presets scenario_entity) (Some "away") !! "temperature").
Proof.
  apply (manual_temperature_not_protected (at_day 1 9 30)
           {[ ATTR_TEMPERATURE := Some (Int 25) ]} scenario_entity "away").
  - vm_compute. reflexivity.
  - reflexivity.
  - discriminate.
  - reflexivity.
  - reflexivity.
Defined.

(** [async_set_hvac_mode] writes the mode and nothing else of the state,
    and sends the target temperature again together with the mode. *)
Theorem async_set_hvac_mode_resends_temperature
    (mode : HVACMode) (e : entity) (id : string) (t : number) :
  climate_entity e = Some id -> str_truthy id = true ->
  target_temperature e = Some t ->
  (forall c, hass_call_ok e c = true) ->
  let e' := async_set_hvac_mode (Some mode) e in
  trace e' =
    (trace e ++ [Call (set_temperature id t); Call (set_hvac_mode id mode);
                 WriteHaState])%list /\
  hvac_mode e' = Some mode /\
  target_temperature e' = Some t /\
  preset_mode e' = preset_mode e /\
  last_preset_change e' = last_preset_change e.
Proof.
  intros Hid Ht Htemp Hok.
  destruct (async_set_hvac_mode_frame (Some mode) e) as (_ & _ & Hm & Hl & Htt & Hh).
  cbv zeta. rewrite Hh, Htt, Hm, Hl, Htemp.
  split; [|tauto].
  unfold async_set_hvac_mode. simpl.
  rewrite (apply_trace_accepted
             (with_hvac_mode (Some mode) e) id); auto.
  simpl. rewrite Htemp. simpl. rewrite <- !app_assoc. reflexivity.
Qed.

Lemma async_set_hvac_mode_resends_temperature_witness :
  let e := with_target_temperature (Some (Int 20)) scenario_entity in
  let e' := async_set_hvac_mode (Some HEAT) e in
  trace e' =
    (trace e ++ [Call (set_temperature "climate.living_room" (Int 20));
                 Call (set_hvac_mode "climate.living_room" HEAT);
                 WriteHaState])%list /\
  hvac_mode e' = Some HEAT /\
  target_temperature e' = Some (Int 20) /\
  preset_mode e' = preset_mode e /\
  last_preset_change e' = last_preset_change e.
Proof.
  cbv zeta.
  apply (async_set_hvac_mode_resends_temperature HEAT
           (with_target_temperature (Some (Int 20)) scenario_entity)
           "climate.living_room" (Int 20)); reflexivity.
Defined.

(** ** Slot times that cannot be read *)

Lemma find_active_raise ct l acc ex :
  find_active ct l acc = Raise ex <-> find_next_slot ct l = Raise ex.
Proof.
  revert acc. induction l as [|x l IH]; intros acc; simpl.
  - split; discriminate.
  - destruct (strptime (time_key x)) as [t|]; [|split; congruence].
    destruct (t <=? ct) eqn:E.
    + replace (ct <? t) with false by lia. apply IH.
    + replace (ct <? t) with true by lia. split; discriminate.
Qed.

Lemma find_next_slot_raise ct l ex :
  find_next_slot ct l = Raise ex ->
  ex = ValueError /\ exists x, x ∈ l /\ strptime (time_key x) = None.
Proof.
  induction l as [|x l IH]; simpl; [discriminate|].
  destruct (strptime (time_key x)) as [t|] eqn:E.
  - destruct (ct <? t); [discriminate|].
    intros H. destruct (IH H) as (-> & y & Hy & Hn).
    split; [reflexivity|]. exists y. split; [apply elem_of_cons; auto|exact Hn].
  - intros [= <-]. split; [reflexivity|].
    exists x. split; [apply elem_of_cons; auto|exact E].
Qed.

Lemma check_schedule_raise now e ex :
  _async_check_schedule now e = Raise ex <->
  find_next_slot (time_of now) (sorted time_key (day_schedule now e)) = Raise ex.
Proof.
  rewrite check_schedule_unfold, <- (find_active_raise _ _ None).
  destruct (find_active _ _ _) as [[p|]|ex']; simpl.
  - destruct (str_truthy p && preset_differs p (preset_mode e));
      [destruct (override_active now (last_preset_change e))|];
      split; discriminate.
  - split; discriminate.
  - split; congruence.
Qed.

Lemma get_next_schedule_raise now e ex :
  _get_next_schedule now e = Raise ex <->
  find_next_slot (time_of now) (sorted time_key (day_schedule now e)) = Raise ex.
Proof.
  unfold _get_next_schedule. rewrite find_next_time_slot.
  destruct (find_next_slot _ _); simpl; [split; discriminate|split; congruence].
Qed.

Lemma get_next_temperature_raise now e ex :
  _get_next_temperature now e = Raise ex <->
  find_next_slot (time_of now) (sorted time_key (day_schedule now e)) = Raise ex.
Proof.
  unfold _get_next_temperature. rewrite find_next_temperature_slot.
  destruct (find_next_slot _ _); simpl; [split; discriminate|split; congruence].
Qed.

(** The schedule check, [_get_next_schedule], [_get_next_temperature]
    and [extra_state_attributes] read the same slots of the sorted
    schedule, up to the first one after the current time: at a given
    instant either all four raise, the same exception, or none does. *)
Theorem schedule_readers_raise_together (now : datetime) (e : entity) (ex : exn) :
  (_async_check_schedule now e = Raise ex <-> _get_next_schedule now e = Raise ex) /\
  (_get_next_schedule now e = Raise ex <-> _get_next_temperature now e = Raise ex) /\
  (_get_next_schedule now e = Raise ex <-> extra_state_attributes now e = Raise ex).
Proof.
  rewrite check_schedule_raise, get_next_schedule_raise, get_next_temperature_raise.
  split; [reflexivity|]. split; [reflexivity|].
  unfold extra_state_attributes.
  destruct (_get_next_schedule now e) as [ns|ex1] eqn:E1; simpl.
  - destruct (_get_next_temperature now e) as [nt|ex2] eqn:E2; simpl.
    + split; [|discriminate]. intros H.
      apply get_next_schedule_raise in H. congruence.
    + apply get_next_temperature_raise in E2. split; [congruence|].
      intros [= <-]. exact E2.
  - apply get_next_schedule_raise in E1. split; congruence.
Qed.

(** The schedule check raises nothing but [ValueError], and only when
    today's schedule holds a slot whose time [strptime] rejects; when
    every time of today's schedule can be read, the check and the
    attributes of the entity return. *)
Theorem schedule_check_raises_on_unreadable_time (now : datetime) (e : entity) :
  (forall ex, _async_check_schedule now e = Raise ex ->
     ex = ValueError /\
     exists x, x ∈ day_schedule now e /\ strptime (time_key x) = None) /\
  (Forall parseable (day_schedule now e) ->
   (exists e', _async_check_schedule now e = Ok e') /\
   (exists a, extra_state_attributes now e = Ok a)).
Proof.
  assert (forall ex,
    find_next_slot (time_of now) (sorted time_key (day_schedule now e)) = Raise ex ->
    ex = ValueError /\
    exists x, x ∈ day_schedule now e /\ strptime (time_key x) = None) as Hbad.
  { intros ex H. apply find_next_slot_raise in H as (-> & x & Hx & Hn).
    split; [reflexivity|]. exists x. split; [apply sorted_elem in Hx|]; assumption. }
  split.
  - intros ex H. apply Hbad, check_schedule_raise, H.
  - intros Hall.
    assert (forall ex,
      find_next_slot (time_of now) (sorted time_key (day_schedule now e)) <> Raise ex)
      as Hno.
    { intros ex H. destruct (Hbad ex H) as (_ & x & Hx & Hn).
      rewrite Forall_forall in Hall. destruct (Hall x Hx) as [t Ht]. congruence. }
    split.
    + destruct (_async_check_schedule now e) as [e'|ex] eqn:E; [eauto|].
      apply check_schedule_raise in E. destruct (Hno ex E).
    + unfold extra_state_attributes.
      destruct (_get_next_schedule now e) as [ns|ex] eqn:E1; simpl.
      * destruct (_get_next_temperature now e) as [nt|ex] eqn:E2; simpl; [eauto|].
        apply get_next_temperature_raise in E2. destruct (Hno ex E2).
      * apply get_next_schedule_raise in E1. destruct (Hno ex E1).
Qed.

Lemma schedule_check_raises_on_unreadable_time_witness :
  Forall parseable (day_schedule (at_day 1 7 30) scenario_entity) /\
  (exists e', _async_check_schedule (at_day 1 7 30) scenario_entity = Ok e') /\
  (exists a, extra_state_attributes (at_day 1 7 30) scenario_entity = Ok a).
Proof.
  assert (Forall parseable (day_schedule (at_day 1 7 30) scenario_entity)) as H.
  { repeat (constructor; [eexists; vm_compute; reflexivity|]). constructor. }
  split; [exact H|].
  apply (schedule_check_raises_on_unreadable_time (at_day 1 7 30) scenario_entity).
  exact H.
Defined.

(** ** The schedule of the day *)

Lemma at_day_split d h m :
  0 <= h < 24 -> 0 <= m < 60 ->
  time_of (at_day d h m) = mk_time h m /\ weekday (at_day d h m) = d mod 7.
Proof.
  intros Hh Hm.
  assert (0 <= mk_time h m < usec_per_day) as Hr.
  { unfold mk_time, usec_per_day, usec_per_minute. lia. }
  unfold time_of, weekday, at_day. split.
  - symmetry. apply (Z.mod_unique _ _ d); [left; exact Hr|].
    unfold usec_per_day, usec_per_minute. lia.
  - f_equal. symmetry. apply (Z.div_unique _ _ d (mk_time h m)); [left; exact Hr|].
    unfold usec_per_day, usec_per_minute. lia.
Qed.

(** At [h]:[m] on day [d] (day 0 a Monday) the time of day read is
    [h]:[m] and the schedule read is the weekday list from Monday to
    Friday and the weekend list on Saturday and Sunday; when that list
    is missing or empty the check returns the entity as it is and the
    attributes announce no next change, whatever the other list holds. *)
Theorem day_type_of_instant (d h m : Z) (e : entity) :
  0 <= h < 24 -> 0 <= m < 60 ->
  time_of (at_day d h m) = mk_time h m /\
  day_schedule (at_day d h m) e =
    default [] (schedules e !!
                  (if d mod 7 <? 5 then SCHEDULE_WEEKDAY else SCHEDULE_WEEKEND)) /\
  (day_schedule (at_day d h m) e = [] ->
   _async_check_schedule (at_day d h m) e = Ok e /\
   extra_state_attributes (at_day d h m) e =
     Ok {| scheduled_entity := climate_entity e;
           active_preset := preset_mode e;
           next_schedule := None;
           next_temperature := None |}).
Proof.
  intros Hh Hm. destruct (at_day_split d h m Hh Hm) as [Ht Hw].
  split; [exact Ht|]. split.
  - unfold day_schedule, schedule_type. rewrite Hw. reflexivity.
  - intros Hnil. split.
    + rewrite check_schedule_unfold, Hnil. reflexivity.
    + unfold extra_state_attributes, _get_next_schedule, _get_next_temperature.
      rewrite Hnil. reflexivity.
Qed.

Lemma day_type_of_instant_witness :
  0 <= 7 < 24 /\ 0 <= 30 < 60 /\
  time_of (at_day 5 7 30) = mk_time 7 30 /\
  day_schedule (at_day 5 7 30) scenario_entity =
    default [] (schedules scenario_entity !!
                  (if 5 mod 7 <? 5 then SCHEDULE_WEEKDAY else SCHEDULE_WEEKEND)) /\
  (day_schedule (at_day 5 7 30) scenario_entity = [] ->
   _async_check_schedule (at_day 5 7 30) scenario_entity = Ok scenario_entity /\
   extra_state_attributes (at_day 5 7 30) scenario_entity =
     Ok {| scheduled_entity := climate_entity scenario_entity;
           active_preset := preset_mode scenario_entity;
           next_schedule := None;
           next_temperature := None |}).
Proof.
  split; [lia|]. split; [lia|].
  apply (day_type_of_instant 5 7 30 scenario_entity); lia.
Defined.

(** ** What the attributes announce *)

(** With times written HH:MM and no two slots of the day at the same
    time, the next change the attributes announce is the one that takes
    place: at the announced time, on a day of the same type, the check
    finds due the preset of the announced slot, and the announced
    temperature is the catalog's temperature of that preset. *)
Theorem announced_change_takes_place
    (now later : datetime) (e : entity) (s : string) :
  Forall well_formed (day_schedule now e) ->
  (forall x y, x ∈ day_schedule now e -> y ∈ day_schedule now e ->
               slot_clock x = slot_clock y -> x = y) ->
  schedule_type later = schedule_type now ->
  _get_next_schedule now e = Ok (Some s) ->
  strptime s = Some (time_of later) ->
  exists S,
    S ∈ day_schedule now e /\ slot_time S = Some s /\
    find_active (time_of later) (sorted time_key (day_schedule later e)) None
      = Ok (slot_preset S) /\
    _get_next_temperature now e =
      Ok (default None (preset_entry (presets e) (slot_preset S) !! "temperature")).
Proof.
  intros Hwf Huniq Hty Hns Hs.
  assert (day_schedule later e = day_schedule now e) as Hday.
  { unfold day_schedule. rewrite Hty. reflexivity. }
  rewrite Hday. set (l := day_schedule now e) in *.
  unfold _get_next_schedule, _get_next_temperature in *. fold l in Hns. fold l.
  rewrite find_next_time_slot in Hns. rewrite find_next_temperature_slot.
  destruct (find_next_slot (time_of now) (sorted time_key l)) as [[S|]|ex] eqn:E;
    simpl in Hns; try discriminate.
  injection Hns as HS. simpl.
  apply find_next_slot_Some in E as (Hin & _). apply sorted_elem in Hin.
  exists S. split; [exact Hin|]. split; [exact HS|]. split; [|reflexivity].
  assert (slot_clock S = time_of later) as Hclock.
  { unfold slot_clock, time_key. rewrite HS. simpl. rewrite Hs. reflexivity. }
  rewrite find_active_last_due by (apply sorted_Forall, Hwf). f_equal.
  pose proof (last_due_sorted (time_of later) _ (sorted_StronglySorted l Hwf)) as H.
  destruct (last_due (time_of later) (sorted time_key l) None) as [s'|].
  - destruct H as (Hin' & Hle & Hmax). apply sorted_elem in Hin'.
    assert (slot_clock S <= slot_clock s').
    { apply Hmax; [apply sorted_elem; exact Hin|lia]. }
    rewrite (Huniq s' S Hin' Hin); [reflexivity|lia].
  - apply (sorted_elem time_key) in Hin. specialize (H S Hin). lia.
Qed.

Lemma announced_change_takes_place_witness :
  exists S,
    S ∈ day_schedule (at_day 1 7 30) scenario_entity /\
    slot_time S = Some "08:00" /\
    find_active (time_of (at_day 2 8 0))
      (sorted time_key (day_schedule (at_day 2 8 0) scenario_entity)) None
      = Ok (slot_preset S) /\
    _get_next_temperature (at_day 1 7 30) scenario_entity =
      Ok (default None
            (preset_entry (presets scenario_entity) (slot_preset S)
               !! "temperature")).
Proof.
  apply (announced_change_takes_place (at_day 1 7 30) (at_day 2 8 0)
           scenario_entity "08:00").
  - repeat (constructor; [reflexivity|]). constructor.
  - intros x y Hx Hy.
    change (day_schedule (at_day 1 7 30) scenario_entity)
      with scenario_weekday in Hx, Hy.
    unfold scenario_weekday in Hx, Hy.
    repeat (apply elem_of_cons in Hx as [->|Hx]);
      try (apply elem_of_nil in Hx; contradiction);
      repeat (apply elem_of_cons in Hy as [->|Hy]);
      try (apply elem_of_nil in Hy; contradiction);
      vm_compute; intros; congruence.
  - reflexivity.
  - vm_compute. reflexivity.
  - vm_compute. reflexivity.
Defined.

(** The temperature the attributes announce for the next slot, when
    there is one, is the temperature the change to that slot's preset
    sets. When the catalog holds no temperature for the preset, the
    attributes announce none and the change sets 21. *)
Theorem announced_temperature_is_applied
    (now T : datetime) (e : entity) (S : slot) (p : string) :
  find_next_slot (time_of now) (sorted time_key (day_schedule now e))
    = Ok (Some S) ->
  slot_preset S = Some p -> is_preset_mode p = true ->
  (forall v, _get_next_temperature now e = Ok (Some v) ->
     target_temperature (async_set_preset_mode T p e) = Some v) /\
  (preset_entry (presets e) (Some p) !! "temperature" = None ->
   _get_next_temperature now e = Ok None /\
   target_temperature (async_set_preset_mode T p e) = Some (Int 21)).
Proof.
  intros Hf Hp Hsup.
  destruct (async_set_preset_mode_accepted T p e Hsup) as (_ & _ & -> & _).
  unfold _get_next_temperature. rewrite find_next_temperature_slot, Hf.
  unfold bind. rewrite Hp.
  destruct (preset_entry (presets e) (Some p) !! "temperature") as [t|].
  - split; [|discriminate]. intros v [= Hv]. exact Hv.
  - split; [discriminate|]. intros _. split; reflexivity.
Qed.

Lemma announced_temperature_is_applied_witness :
  (forall v,
     _get_next_temperature (at_day 1 7 30) scenario_entity = Ok (Some v) ->
     target_temperature
       (async_set_preset_mode (at_day 1 8 0) "away" scenario_entity) = Some v) /\
  (preset_entry (presets scenario_entity) (Some "away") !! "temperature" = None ->
   _get_next_temperature (at_day 1 7 30) scenario_entity = Ok None /\
   target_temperature
     (async_set_preset_mode (at_day 1 8 0) "away" scenario_entity)
     = Some (Int 21)).
Proof.
  apply (announced_temperature_is_applied (at_day 1 7 30) (at_day 1 8 0)
           scenario_entity (Slot (Some "08:00") (Some "away")) "away").
  - vm_compute. reflexivity.
  - reflexivity.
  - reflexivity.
Defined.

(** ** Runs of commands *)

Lemma check_schedule_cases now e e' :
  _async_check_schedule now e = Ok e' ->
  e' = e \/
  e' = emit (Log DEBUG "Manual override active, skipping schedule change") e \/
  exists p,
    e' = async_set_preset_mode now p
           (emit (Log INFO "Schedule changing preset from %s to %s") e).
Proof.
  rewrite check_schedule_unfold.
  destruct (find_active _ _ _) as [[p|]|ex]; simpl; try discriminate.
  - destruct (str_truthy p && preset_differs p (preset_mode e)).
    + destruct (override_active now (last_preset_change e)); intros [= <-]; eauto.
    + intros [= <-]. auto.
  - intros [= <-]. auto.
Qed.

(** A preset change, accepted or not, leaves the configuration and the
    HVAC mode alone, extends the trace, keeps a supported preset
    supported, and changes the preset only together with the record of
    the last change. *)
Lemma async_set_preset_mode_step now mode e :
  let e' := async_set_preset_mode now mode e in
  (hass_call_ok e' = hass_call_ok e /\ climate_entity e' = climate_entity e /\
   schedules e' = schedules e /\ presets e' = presets e /\
   hvac_mode e' = hvac_mode e) /\
  (exists new, trace e' = (trace e ++ new)%list) /\
  (preset_supported e -> preset_supported e') /\
  (last_preset_change e' = last_preset_change e /\ preset_mode e' = preset_mode e
   \/ last_preset_change e' = Some now).
Proof.
  unfold async_set_preset_mode.
  destruct (is_preset_mode mode) eqn:Ep; simpl.
  - match goal with |- context [_async_apply_to_climate_entity ?x] =>
      pose proof (apply_same_state x) as F;
      pose proof (apply_trace_grows x) as [new G] end.
    unfold same_state in F. simpl in F.
    destruct F as (F1 & F2 & F3 & F4 & F5 & F6 & F7 & F8).
    split; [tauto|]. split; [|split].
    + exists (new ++ [WriteHaState])%list. rewrite G. simpl.
      rewrite app_assoc. reflexivity.
    + intros _. exists mode. simpl. rewrite F7. auto.
    + right. exact F8.
  - split; [tauto|]. split; [eauto|]. split; [tauto|]. left. tauto.
Qed.

Lemma step_facts c e e' :
  step c e = Ok e' ->
  (hass_call_ok e' = hass_call_ok e /\ climate_entity e' = climate_entity e /\
   schedules e' = schedules e /\ presets e' = presets e) /\
  (exists new, trace e' = (trace e ++ new)%list) /\
  (preset_supported e -> preset_supported e') /\
  (last_preset_change e' = None ->
   last_preset_change e = None /\ preset_mode e' = preset_mode e) /\
  ((forall m, c <> SetHvacMode m) -> hvac_mode e' = hvac_mode e).
Proof.
  destruct c as [now|now mode|kwargs|m]; simpl.
  - intros H. apply check_schedule_cases in H as [->|[->|[p ->]]].
    + repeat split; auto. exists []. symmetry. apply app_nil_r.
    + simpl. repeat split; auto. eauto.
    + match goal with |- context [async_set_preset_mode now p ?x] =>
        destruct (async_set_preset_mode_step now p x)
          as ((C1 & C2 & C3 & C4 & C5) & [new T] & S & L) end.
      simpl in *. split; [tauto|]. split; [|split; [|split]].
      * exists ([Log INFO "Schedule changing preset from %s to %s"] ++ new)%list.
        rewrite T, <- app_assoc. reflexivity.
      * exact S.
      * intros Hn. destruct L as [[L1 L2]|L]; [|congruence].
        split; congruence.
      * intros _. exact C5.
  - intros [= <-].
    destruct (async_set_preset_mode_step now mode e)
      as ((C1 & C2 & C3 & C4 & C5) & T & S & L).
    split; [tauto|]. split; [exact T|]. split; [exact S|]. split.
    + intros Hn. destruct L as [[L1 L2]|L]; [|congruence]. split; congruence.
    + intros _. exact C5.
  - intros [= <-]. unfold async_set_temperature.
    destruct (truthy (default None (kwargs !! ATTR_TEMPERATURE))).
    + match goal with |- context [_async_apply_to_climate_entity ?x] =>
        pose proof (apply_same_state x) as F;
        pose proof (apply_trace_grows x) as [new G] end.
      unfold same_state in F. simpl in F.
      destruct F as (F1 & F2 & F3 & F4 & F5 & F6 & F7 & F8). simpl.
      split; [tauto|]. split; [|split; [|split]].
      * exists (new ++ [WriteHaState])%list. rewrite G. simpl.
        rewrite app_assoc. reflexivity.
      * unfold preset_supported. simpl. rewrite F7. auto.
      * rewrite F7, F8. auto.
      * intros _. exact F6.
    + repeat split; auto. exists []. symmetry. apply app_nil_r.
  - intros [= <-]. unfold async_set_hvac_mode.
    match goal with |- context [_async_apply_to_climate_entity ?x] =>
      pose proof (apply_same_state x) as F;
      pose proof (apply_trace_grows x) as [new G] end.
    unfold same_state in F. simpl in F.
    destruct F as (F1 & F2 & F3 & F4 & F5 & F6 & F7 & F8). simpl.
    split; [tauto|]. split; [|split; [|split]].
    + exists (new ++ [WriteHaState])%list. rewrite G. simpl.
      rewrite app_assoc. reflexivity.
    + unfold preset_supported. simpl. rewrite F7. auto.
    + rewrite F7, F8. auto.
    + intros H. destruct (H m). reflexivity.
Qed.

(** Whatever the timer and the service calls do, in whatever order, an
    active preset that is one of the supported presets stays one. *)
Theorem run_keeps_supported_preset (cs : list command) (e e' : entity) :
  run cs e = Ok e' -> preset_supported e -> preset_supported e'.
Proof.
  revert e. induction cs as [|c cs IH]; intros e; simpl.
  - intros [= <-]. auto.
  - destruct (step c e) as [e1|ex] eqn:E; simpl; [|discriminate].
    intros Hr Hs. apply (IH e1 Hr).
    apply (step_facts c e e1 E). exact Hs.
Qed.

Lemma run_keeps_supported_preset_witness :
  exists e',
    run [ Tick (at_day 1 9 30);
          SetPresetMode (at_day 1 9 40) "bogus";
          SetTemperature {[ ATTR_TEMPERATURE := Some (Int 25) ]};
          Tick (at_day 1 17 5) ] scenario_entity = Ok e' /\
    preset_supported scenario_entity /\
    preset_supported e'.
Proof.
  eexists. split; [vm_compute; reflexivity|].
  assert (preset_supported scenario_entity) as H.
  { exists "home". split; reflexivity. }
  split; [exact H|].
  eapply (run_keeps_supported_preset
            [ Tick (at_day 1 9 30);
              SetPresetMode (at_day 1 9 40) "bogus";
              SetTemperature {[ ATTR_TEMPERATURE := Some (Int 25) ]};
              Tick (at_day 1 17 5) ] scenario_entity); [|exact H].
  vm_compute. reflexivity.
Defined.

(** The active preset never changes without [_last_preset_change] being
    set, and once set the record is never cleared: after any run that
    ends with the record unset, the record was unset at the start and the
    preset is the one of the start. *)
Theorem run_records_preset_changes (cs : list command) (e e' : entity) :
  run cs e = Ok e' ->
  last_preset_change e' = None ->
  last_preset_change e = None /\ preset_mode e' = preset_mode e.
Proof.
  revert e. induction cs as [|c cs IH]; intros e; simpl.
  - intros [= <-]. auto.
  - destruct (step c e) as [e1|ex] eqn:E; simpl; [|discriminate].
    intros Hr Hn. destruct (IH e1 Hr Hn) as [H1 H2].
    destruct (step_facts c e e1 E) as (_ & _ & _ & L & _).
    destruct (L H1) as [L1 L2]. split; congruence.
Qed.

Lemma run_records_preset_changes_witness :
  exists e',
    run [ Tick (at_day 1 7 30);
          SetTemperature {[ ATTR_TEMPERATURE := Some (Int 25) ]};
          SetPresetMode (at_day 1 7 40) "bogus";
          SetHvacMode (Some HEAT) ] scenario_entity = Ok e' /\
    last_preset_change e' = None /\
    last_preset_change scenario_entity = None /\
    preset_mode e' = preset_mode scenario_entity.
Proof.
  eexists. split; [vm_compute; reflexivity|]. split; [reflexivity|].
  eapply (run_records_preset_changes
            [ Tick (at_day 1 7 30);
              SetTemperature {[ ATTR_TEMPERATURE := Some (Int 25) ]};
              SetPresetMode (at_day 1 7 40) "bogus";
              SetHvacMode (Some HEAT) ] scenario_entity).
  - vm_compute. reflexivity.
  - reflexivity.
Defined.

(** No run changes the configuration of the entity (climate device,
    schedules, presets); the trace is only ever appended to; and the HVAC
    mode is changed by [async_set_hvac_mode] alone. *)
Theorem run_keeps_configuration (cs : list command) (e e' : entity) :
  run cs e = Ok e' ->
  (climate_entity e' = climate_entity e /\ schedules e' = schedules e /\
   presets e' = presets e) /\
  (exists new, trace e' = (trace e ++ new)%list) /\
  (Forall (fun c => forall m, c <> SetHvacMode m) cs ->
   hvac_mode e' = hvac_mode e).
Proof.
  revert e. induction cs as [|c cs IH]; intros e; simpl.
  - intros [= <-]. repeat split; auto. exists []. symmetry. apply app_nil_r.
  - destruct (step c e) as [e1|ex] eqn:E; simpl; [|discriminate].
    intros Hr. destruct (IH e1 Hr) as ((A1 & A2 & A3) & [new1 T1] & M1).
    destruct (step_facts c e e1 E) as ((_ & B1 & B2 & B3) & [new0 T0] & _ & _ & M0).
    split; [repeat split; congruence|]. split.
    + exists (new0 ++ new1)%list. rewrite T1, T0, app_assoc. reflexivity.
    + intros Hall. apply Forall_cons in Hall as [Hc Hcs].
      rewrite (M1 Hcs). apply M0, Hc.
Qed.

Lemma run_keeps_configuration_witness :
  exists e',
    run [ Tick (at_day 1 9 30);
          SetTemperature {[ ATTR_TEMPERATURE := Some (Int 25) ]};
          SetPresetMode (at_day 1 9 40) "sleep" ] scenario_entity = Ok e' /\
    (climate_entity e' = climate_entity scenario_entity /\
     schedules e' = schedules scenario_entity /\
     presets e' = presets scenario_entity) /\
    (exists new, trace e' = (trace scenario_entity ++ new)%list) /\
    (Forall (fun c => forall m, c <> SetHvacMode m)
       [ Tick (at_day 1 9 30);
         SetTemperature {[ ATTR_TEMPERATURE := Some (Int 25) ]};
         SetPresetMode (at_day 1 9 40) "sleep" ] ->
     hvac_mode e' = hvac_mode scenario_entity).
Proof.
  eexists. split; [vm_compute; reflexivity|].
  eapply (run_keeps_configuration
            [ Tick (at_day 1 9 30);
              SetTemperature {[ ATTR_TEMPERATURE := Some (Int 25) ]};
              SetPresetMode (at_day 1 9 40) "sleep" ] scenario_entity).
  vm_compute. reflexivity.
Defined.

(** ** Startup *)

(** An override does not outlive a restart. An entity fresh from
    [__init__] restores a usable stored state whose temperature converts;
    when the initial schedule check finds due a supported preset that
    differs from the restored one, it applies it at once, replacing the
    restored preset and temperature; when it finds nothing due, or the
    restored preset, the restored preset and temperature stand. *)
Theorem startup_schedule_overrides_restored_state
    (hass : service_call -> bool) (entry : ConfigEntry)
    (now : datetime) (ls : State) (f : spec_float) :
  state_usable (state ls) = true ->
  py_float (default (Some (Int 21)) (attr_temperature ls)) = Ok f ->
  let e0 := init hass entry in
  let restored := default (Some PRESET_HOME) (attr_preset_mode ls) in
  (forall q,
     find_active (time_of now) (sorted time_key (day_schedule now e0)) None
       = Ok (Some q) ->
     str_truthy q = true -> is_preset_mode q = true -> restored <> Some q ->
     exists e',
       async_added_to_hass now (Some ls) e0 = Ok e' /\
       preset_mode e' = Some q /\
       target_temperature e' =
         default (Some (Int 21))
           (preset_entry (presets e0) (Some q) !! "temperature") /\
       last_preset_change e' = Some now) /\
  (forall r,
     find_active (time_of now) (sorted time_key (day_schedule now e0)) None
       = Ok r ->
     r = None \/ r = restored ->
     exists e',
       async_added_to_hass now (Some ls) e0 = Ok e' /\
       preset_mode e' = restored /\
       target_temperature e' = Some (Float f) /\
       last_preset_change e' = None).
Proof.
  intros Hu Hf e0 restored.
  assert (restore_state (Some ls) e0 =
          Ok (with_preset_mode restored
                (with_target_temperature (Some (Float f)) e0))) as Hr.
  { unfold restore_state. rewrite Hu, Hf. reflexivity. }
  unfold async_added_to_hass. rewrite Hr. simpl.
  set (e1 := with_preset_mode restored
               (with_target_temperature (Some (Float f)) e0)).
  assert (day_schedule now e1 = day_schedule now e0) as Hd by reflexivity.
  split.
  - intros q Hq Ht Hs Hne.
    destruct (check_schedule_applies now e1 q) as (e' & He' & Hp & Htt & Hl);
      auto.
    exists e'. auto.
  - intros r Hfa Hcase. exists e1.
    split; [|repeat split].
    rewrite check_schedule_unfold, Hd, Hfa. simpl.
    destruct Hcase as [->| ->]; [reflexivity|].
    destruct restored as [p|] eqn:Er; [|reflexivity].
    change (preset_mode e1) with (Some p).
    rewrite preset_differs_same, andb_false_r. reflexivity.
Qed.

Lemma startup_schedule_overrides_restored_state_witness :
  state_usable (state snapshot_complete) = true /\
  exists e',
    async_added_to_hass (at_day 1 17 30) (Some snapshot_complete)
      (init (fun _ => true) scenario_entry) = Ok e' /\
    preset_mode e' = Some "home" /\
    target_temperature e' =
      default (Some (Int 21))
        (preset_entry (presets (init (fun _ => true) scenario_entry))
           (Some "home") !! "temperature") /\
    last_preset_change e' = Some (at_day 1 17 30).
Proof.
  split; [reflexivity|].
  apply (startup_schedule_overrides_restored_state (fun _ => true)
           scenario_entry (at_day 1 17 30) snapshot_complete
           (binary_normalize 53 1024 18 0 false)).
  - reflexivity.
  - reflexivity.
  - vm_compute. reflexivity.
  - reflexivity.
  - reflexivity.
  - discriminate.
Defined.

(** ** The configuration flows *)

Import ConfigFlow.

(** With times written HH:MM the loop over the sorted schedule returns
    nothing or the preset of one of the slots. *)
Lemma find_active_member ct l :
  Forall well_formed l ->
  exists r, find_active ct (sorted time_key l) None = Ok r /\
    (r = None \/ exists S, S ∈ l /\ r = slot_preset S).
Proof.
  intros Hwf. rewrite find_active_last_due by (apply sorted_Forall, Hwf).
  eexists. split; [reflexivity|].
  pose proof (last_due_sorted ct _ (sorted_StronglySorted l Hwf)) as H.
  destruct (last_due ct (sorted time_key l) None) as [s|]; [|auto].
  right. exists s. destruct H as (Hin & _). apply sorted_elem in Hin. auto.
Qed.

Lemma user_flow_entry is_configured name climate r entry :
  async_step_user is_configured (Some (user_form name climate)) = Some r ->
  entry_of_user_flow r = Some entry ->
  entry =
    {| entry_data := user_form name climate;
       entry_options := {[ CONF_SCHEDULES := CSchedules DEFAULT_SCHEDULES;
                           CONF_PRESETS := CPresets DEFAULT_PRESETS ]} |}.
Proof.
  unfold async_step_user.
  replace (user_form name climate !! CONF_CLIMATE_ENTITY)
    with (Some (CStr climate)) by reflexivity.
  destruct (is_configured (CStr climate)); intros [= <-]; simpl; [discriminate|].
  intros [= <-]. reflexivity.
Qed.

Lemma default_schedule_of_day now :
  default [] (DEFAULT_SCHEDULES !! schedule_type now)
  = [ Slot (Some "06:00") (Some PRESET_HOME);
      Slot (Some "08:00") (Some PRESET_AWAY);
      Slot (Some "17:00") (Some PRESET_HOME);
      Slot (Some "22:00") (Some PRESET_SLEEP) ] \/
  default [] (DEFAULT_SCHEDULES !! schedule_type now)
  = [ Slot (Some "08:00") (Some PRESET_HOME);
      Slot (Some "23:00") (Some PRESET_SLEEP) ].
Proof.
  unfold schedule_type. destruct (weekday now <? 5); [left|right]; reflexivity.
Qed.

(** The entity of an entry created by the user flow has the default
    schedules and presets, and its schedule check, at any instant,
    returns, leaves a supported preset active, and leaves as target
    temperature either none or the catalog's temperature of the active
    preset. *)
Theorem user_flow_entity_follows_default_schedule
    (is_configured : conf_value -> bool) (name climate : string)
    (r : FlowResult) (entry : Entry)
    (hass : service_call -> bool) (now : datetime) :
  async_step_user is_configured (Some (user_form name climate)) = Some r ->
  entry_of_user_flow r = Some entry ->
  let e := init hass (as_config_entry entry) in
  climate_entity e = Some climate /\
  schedules e = DEFAULT_SCHEDULES /\
  presets e = DEFAULT_PRESETS /\
  exists e',
    _async_check_schedule now e = Ok e' /\
    preset_supported e' /\
    (target_temperature e' = None \/
     exists p, preset_mode e' = Some p /\
       preset_entry DEFAULT_PRESETS (Some p) !! "temperature"
         = Some (target_temperature e')).
Proof.
  intros Hr He. rewrite (user_flow_entry _ _ _ _ _ Hr He). clear Hr He.
  intros e. split; [reflexivity|]. split; [reflexivity|]. split; [reflexivity|].
  assert (day_schedule now e = default [] (DEFAULT_SCHEDULES !! schedule_type now))
    as Hday by reflexivity.
  assert (Forall well_formed (day_schedule now e) /\
          forall S, S ∈ day_schedule now e ->
            slot_preset S = Some PRESET_HOME \/ slot_preset S = Some PRESET_AWAY \/
            slot_preset S = Some PRESET_SLEEP) as [Hwf Hmem].
  { rewrite Hday. destruct (default_schedule_of_day now) as [-> | ->].
    - split; [repeat (constructor; [reflexivity|]); constructor|].
      intros S HS. repeat (apply elem_of_cons in HS as [->|HS]; [simpl; auto|]).
      apply elem_of_nil in HS. contradiction.
    - split; [repeat (constructor; [reflexivity|]); constructor|].
      intros S HS. repeat (apply elem_of_cons in HS as [->|HS]; [simpl; auto|]).
      apply elem_of_nil in HS. contradiction. }
  destruct (find_active_member (time_of now) _ Hwf) as (res & Hres & Hcase).
  rewrite check_schedule_unfold, Hres. simpl.
  assert (preset_supported e) as Hsup0 by (exists PRESET_HOME; split; reflexivity).
  destruct Hcase as [-> | (S & HS & ->)].
  { exists e. split; [reflexivity|]. split; [exact Hsup0|]. left. reflexivity. }
  destruct (Hmem S HS) as [-> | [-> | ->]].
  - exists e. split; [reflexivity|]. split; [exact Hsup0|]. left. reflexivity.
  - eexists. split; [reflexivity|].
    match goal with |- context [async_set_preset_mode now PRESET_AWAY ?x] =>
      destruct (async_set_preset_mode_accepted now PRESET_AWAY x eq_refl)
        as (Hp & _ & Ht & _) end.
    split; [exists PRESET_AWAY; split; [exact Hp|reflexivity]|].
    right. exists PRESET_AWAY. split; [exact Hp|]. rewrite Ht. reflexivity.
  - eexists. split; [reflexivity|].
    match goal with |- context [async_set_preset_mode now PRESET_SLEEP ?x] =>
      destruct (async_set_preset_mode_accepted now PRESET_SLEEP x eq_refl)
        as (Hp & _ & Ht & _) end.
    split; [exists PRESET_SLEEP; split; [exact Hp|reflexivity]|].
    right. exists PRESET_SLEEP. split; [exact Hp|]. rewrite Ht. reflexivity.
Qed.

Lemma user_flow_entity_follows_default_schedule_witness :
  exists r entry,
    async_step_user (fun _ => false)
      (Some (user_form "Climate Scheduler" "climate.living_room")) = Some r /\
    entry_of_user_flow r = Some entry /\
    let e := init (fun _ => true) (as_config_entry entry) in
    climate_entity e = Some "climate.living_room" /\
    schedules e = DEFAULT_SCHEDULES /\
    presets e = DEFAULT_PRESETS /\
    exists e',
      _async_check_schedule (at_day 5 9 0) e = Ok e' /\
      preset_supported e' /\
      (target_temperature e' = None \/
       exists p, preset_mode e' = Some p /\
         preset_entry DEFAULT_PRESETS (Some p) !! "temperature"
           = Some (target_temperature e')).
Proof.
  eexists. eexists. split; [reflexivity|]. split; [reflexivity|].
  eapply (user_flow_entity_follows_default_schedule (fun _ => false)
            "Climate Scheduler" "climate.living_room"); reflexivity.
Defined.

(** Submitting the options form leaves the entry without schedules and
    without presets: the form's data, keyed [temp_home] to
    [temp_vacation], replace the options the user flow wrote. The entity
    built from the entry then has an empty schedule table and an empty
    catalog, its schedule check never acts, and every preset change sets
    21 whatever temperatures were submitted. *)
Theorem options_flow_drops_schedules_and_presets
    (is_configured : conf_value -> bool) (name climate : string)
    (r : FlowResult) (entry : Entry)
    (home away sleep vacation : number) (hass : service_call -> bool) :
  async_step_user is_configured (Some (user_form name climate)) = Some r ->
  entry_of_user_flow r = Some entry ->
  let entry' :=
    entry_after_options_flow
      (async_step_init entry (Some (options_form home away sleep vacation)))
      entry in
  let e := init hass (as_config_entry entry') in
  schedules e = ∅ /\ presets e = ∅ /\
  (forall now, _async_check_schedule now e = Ok e) /\
  (forall T mode, is_preset_mode mode = true ->
     target_temperature (async_set_preset_mode T mode e) = Some (Int 21)).
Proof.
  intros Hr He. rewrite (user_flow_entry _ _ _ _ _ Hr He). clear Hr He.
  intros entry' e.
  assert (schedules e = ∅) as Hs by reflexivity.
  assert (presets e = ∅) as Hp by reflexivity.
  split; [exact Hs|]. split; [exact Hp|]. split.
  - intros now. unfold _async_check_schedule. rewrite Hs. reflexivity.
  - intros T mode Hm.
    destruct (async_set_preset_mode_accepted T mode e Hm) as (_ & _ & -> & _).
    rewrite Hp. reflexivity.
Qed.

Lemma options_flow_drops_schedules_and_presets_witness :
  exists r entry,
    async_step_user (fun _ => false)
      (Some (user_form "Climate Scheduler" "climate.living_room")) = Some r /\
    entry_of_user_flow r = Some entry /\
    let entry' :=
      entry_after_options_flow
        (async_step_init entry
           (Some (options_form (Int 22) (Int 17) (Int 18) (Int 15))))
        entry in
    let e := init (fun _ => true) (as_config_entry entry') in
    schedules e = ∅ /\ presets e = ∅ /\
    (forall now, _async_check_schedule now e = Ok e) /\
    (forall T mode, is_preset_mode mode = true ->
       target_temperature (async_set_preset_mode T mode e) = Some (Int 21)).
Proof.
  eexists. eexists. split; [reflexivity|]. split; [reflexivity|].
  eapply (options_flow_drops_schedules_and_presets (fun _ => false)
            "Climate Scheduler" "climate.living_room"); reflexivity.
Defined.

(** The options form shows, for each preset, the catalog's temperature
    of the entry's options: after the user flow these are 21, 18, 19 and
    16. Once the form has been submitted the options hold no catalog any
    more, and the form opened again shows 21, 18, 19 and 16, not the
    temperatures that were submitted. *)
Theorem options_form_forgets_submitted_temperatures
    (is_configured : conf_value -> bool) (name climate : string)
    (r : FlowResult) (entry : Entry) (home away sleep vacation : number) :
  async_step_user is_configured (Some (user_form name climate)) = Some r ->
  entry_of_user_flow r = Some entry ->
  let shown :=
    show_form "init"
      [ ("temp_home", DefaultTemp (Some (Int 21)));
        ("temp_away", DefaultTemp (Some (Int 18)));
        ("temp_sleep", DefaultTemp (Some (Int 19)));
        ("temp_vacation", DefaultTemp (Some (Int 16))) ] in
  async_step_init entry None = shown /\
  async_step_init
    (entry_after_options_flow
       (async_step_init entry (Some (options_form home away sleep vacation)))
       entry) None = shown.
Proof.
  intros Hr He. rewrite (user_flow_entry _ _ _ _ _ Hr He). clear Hr He.
  split; reflexivity.
Qed.

Lemma options_form_forgets_submitted_temperatures_witness :
  exists r entry,
    async_step_user (fun _ => false)
      (Some (user_form "Climate Scheduler" "climate.living_room")) = Some r /\
    entry_of_user_flow r = Some entry /\
    let shown :=
      show_form "init"
        [ ("temp_home", DefaultTemp (Some (Int 21)));
          ("temp_away", DefaultTemp (Some (Int 18)));
          ("temp_sleep", DefaultTemp (Some (Int 19)));
          ("temp_vacation", DefaultTemp (Some (Int 16))) ] in
    async_step_init entry None = shown /\
    async_step_init
      (entry_after_options_flow
         (async_step_init entry
            (Some (options_form (Int 22) (Int 17) (Int 18) (Int 15))))
         entry) None = shown.
Proof.
  eexists. eexists. split; [reflexivity|]. split; [reflexivity|].
  eapply (options_form_forgets_submitted_temperatures (fun _ => false)
            "Climate Scheduler" "climate.living_room"); reflexivity.
Defined.

(** ** The calls of a preset change *)

(** A preset change that is accepted, on an entity that names a climate
    device and whose calls the platform accepts, sends the temperature
    of the new preset (the catalog's, or 21), not the previous target,
    then the HVAC mode, and ends with one write-out of the state; a
    catalog temperature of [None] sends the mode alone. *)
Theorem async_set_preset_mode_sends_new_temperature
    (now : datetime) (mode : string) (e : entity) (id : string) :
  is_preset_mode mode = true ->
  climate_entity e = Some id -> str_truthy id = true ->
  (forall c, hass_call_ok e c = true) ->
  trace (async_set_preset_mode now mode e) =
    (trace e
     ++ match default (Some (Int 21))
                (preset_entry (presets e) (Some mode) !! "temperature") with
        | Some t => [Call (set_temperature id t)]
        | None => []
        end
     ++ match hvac_mode e with
        | Some m => [Call (set_hvac_mode id m)]
        | None => []
        end
     ++ [WriteHaState])%list.
Proof.
  intros Hm Hid Ht Hok. unfold async_set_preset_mode. rewrite Hm. simpl.
  match goal with |- context [_async_apply_to_climate_entity ?x] =>
    rewrite (apply_trace_accepted x id Hid Ht Hok) end.
  simpl. rewrite <- !app_assoc. reflexivity.
Qed.

Lemma async_set_preset_mode_sends_new_temperature_witness :
  trace (async_set_preset_mode (at_day 1 10 0) "away"
           (with_target_temperature (Some (Int 25)) scenario_entity)) =
    [ Call (set_temperature "climate.living_room" (Int 18));
      Call (set_hvac_mode "climate.living_room" HEAT_COOL);
      WriteHaState ].
Proof.
  apply (async_set_preset_mode_sends_new_temperature (at_day 1 10 0) "away"
           (with_target_temperature (Some (Int 25)) scenario_entity)
           "climate.living_room"); reflexivity.
Defined.

(** ** Two slots at the same time *)

Lemma active_preset_tie_break_witness :
  find_active (mk_time 9 0)
    (sorted time_key
       ([ Slot (Some "06:00") (Some "home"); Slot (Some "08:00") (Some "away") ]
        ++ Slot (Some "08:00") (Some "sleep")
        :: [ Slot (Some "17:00") (Some "home") ])) None
  = Ok (Some "sleep").
Proof.
  apply (active_preset_tie_break (mk_time 9 0)
           [ Slot (Some "06:00") (Some "home"); Slot (Some "08:00") (Some "away") ]
           (Slot (Some "08:00") (Some "sleep"))
           [ Slot (Some "17:00") (Some "home") ]).
  - repeat (constructor; [reflexivity|]). constructor.
  - vm_compute. discriminate.
  - intros x Hx.
    repeat (apply elem_of_cons in Hx as [->|Hx];
            [vm_compute; intros; discriminate|]).
    apply elem_of_nil in Hx. contradiction.
  - intros x Hx.
    repeat (apply elem_of_cons in Hx as [->|Hx];
            [vm_compute; intros H; exfalso; apply H; reflexivity|]).
    apply elem_of_nil in Hx. contradiction.
Defined.

Lemma next_slot_tie_break_witness :
  find_next_slot (mk_time 7 0)
    (sorted time_key
       ([ Slot (Some "17:00") (Some "home") ]
        ++ Slot (Some "08:00") (Some "away")
        :: [ Slot (Some "08:00") (Some "sleep"); Slot (Some "06:00") (Some "home") ]))
  = Ok (Some (Slot (Some "08:00") (Some "away"))).
Proof.
  apply (next_slot_tie_break (mk_time 7 0)
           [ Slot (Some "17:00") (Some "home") ]
           (Slot (Some "08:00") (Some "away"))
           [ Slot (Some "08:00") (Some "sleep"); Slot (Some "06:00") (Some "home") ]).
  - repeat (constructor; [reflexivity|]). constructor.
  - vm_compute. reflexivity.
  - intros x Hx.
    repeat (apply elem_of_cons in Hx as [->|Hx];
            [vm_compute; intros; reflexivity|]).
    apply elem_of_nil in Hx. contradiction.
  - intros x Hx.
    repeat (apply elem_of_cons in Hx as [->|Hx];
            [vm_compute; intros; try discriminate; congruence|]).
    apply elem_of_nil in Hx. contradiction.
Defined.
